(** * CosmoShop: inventory and sales models

    A shallow embedding of the Django models of the CosmoShop backend
    ([inventory/models.py], [sales/models.py]) and of the parts of Python's
    [decimal] module and of Django's model layer that these models rely on.
    The user model of [accounts/models.py] appears as the set of its
    primary keys, to which the cashier and receiver keys point.

    Conventions.
    - A [Decimal] is the triple Python's [as_tuple] shows: sign, coefficient
      and exponent. Only finite decimals are modelled, and the exponent
      limits of the arithmetic context (Emin, Emax) are left out: no
      overflow, no subnormal results. The context is Python's default:
      28 significant digits, ROUND_HALF_EVEN.
    - The database is a record of tables, each a finite map from primary key
      to row. A model operation takes the store and returns either an error
      (the store is then the one before the call) or the new store.
    - The database adapter of a decimal column is the one that quantizes
      the value to the places of the column and raises when it has too
      many digits ([format_number], as in Django 4.2); integer columns
      hold any integer that passes their checks.
    - The random source of [uuid.uuid4] is an explicit argument. *)

From Stdlib Require Import ZArith NArith QArith Qabs Qpower Lia Lqa Ascii String.
From stdpp Require Import gmap strings list numbers.

Local Open Scope Z_scope.

(** ** Python's decimal arithmetic *)

Module Dec.

Record Decimal := mkDec { dsign : bool; dint : N; dexp : Z }.

(** [getcontext().prec] *)
Definition prec : Z := 28.

Fixpoint ndigits_fuel (fuel : nat) (n : N) : Z :=
  match fuel with
  | O => 1
  | S f => if (n <? 10)%N then 1 else 1 + ndigits_fuel f (n / 10)%N
  end.

(** [len(self._int)]: the number of decimal digits of the coefficient. *)
Definition ndigits (n : N) : Z := ndigits_fuel (N.size_nat n) n.

(** [Decimal.__bool__]: a finite decimal is true when it is not zero. *)
Definition truthy (d : Decimal) : bool := negb (dint d =? 0)%N.

Definition zero (d : Decimal) : bool := (dint d =? 0)%N.

(** [Decimal(n)] for a Python [int]. *)
Definition of_int (n : Z) : Decimal := mkDec (n <? 0) (Z.abs_N n) 0.

(** [copy_negate] *)
Definition negate (d : Decimal) : Decimal :=
  mkDec (negb (dsign d)) (dint d) (dexp d).

(** [_round_half_even] followed by the increment of the kept digits: the
    coefficient [c] without its [k] low digits, rounded half to even. *)
Definition round_half_even (c : N) (k : Z) : N :=
  let p := (10 ^ Z.to_N k)%N in
  let q := (c / p)%N in
  let r := (c mod p)%N in
  if (p <? 2 * r)%N then (q + 1)%N
  else if (2 * r =? p)%N then (if N.odd q then (q + 1)%N else q)
  else q.

(** [_fix]: round to the precision of the context. *)
Definition fix_ (d : Decimal) : Decimal :=
  if zero d then d
  else
    let n := ndigits (dint d) in
    if n <=? prec then d
    else
      let k := n - prec in
      let c := round_half_even (dint d) k in
      if prec <? ndigits c
      then mkDec (dsign d) (c / 10)%N (dexp d + k + 1)
      else mkDec (dsign d) c (dexp d + k).

(** [_rescale(exp, ROUND_HALF_EVEN)] *)
Definition rescale (d : Decimal) (e : Z) : Decimal :=
  if zero d then mkDec (dsign d) 0 e
  else if e <=? dexp d
  then mkDec (dsign d) (dint d * 10 ^ Z.to_N (dexp d - e))%N e
  else mkDec (dsign d) (round_half_even (dint d) (e - dexp d)) e.

(** [_normalize(op1, op2, prec)]: both operands at one exponent; an operand
    too small to matter is replaced by a one in the last place that does. *)
Definition normalize (a b : Decimal) : Decimal * Decimal :=
  let a_is_other := dexp a <? dexp b in
  let tmp := if a_is_other then b else a in
  let other := if a_is_other then a else b in
  let exp := dexp tmp + Z.min (-1) (ndigits (dint tmp) - prec - 2) in
  let other' :=
    if ndigits (dint other) + dexp other - 1 <? exp
    then mkDec (dsign other) 1 exp else other in
  let tmp' :=
    mkDec (dsign tmp) (dint tmp * 10 ^ Z.to_N (dexp tmp - dexp other'))%N
          (dexp other') in
  if a_is_other then (other', tmp') else (tmp', other').

(** [Decimal.__add__] *)
Definition add (a b : Decimal) : Decimal :=
  let exp := Z.min (dexp a) (dexp b) in
  if zero a && zero b then fix_ (mkDec (dsign a && dsign b) 0 exp)
  else if zero a then fix_ (rescale b (Z.max exp (dexp b - prec - 1)))
  else if zero b then fix_ (rescale a (Z.max exp (dexp a - prec - 1)))
  else
    let '(op1, op2) := normalize a b in
    if xorb (dsign op1) (dsign op2) then
      if (dint op1 =? dint op2)%N then fix_ (mkDec false 0 exp)
      else if (dint op1 <? dint op2)%N
      then fix_ (mkDec (dsign op2) (dint op2 - dint op1)%N (dexp op1))
      else fix_ (mkDec (dsign op1) (dint op1 - dint op2)%N (dexp op1))
    else fix_ (mkDec (dsign op1) (dint op1 + dint op2)%N (dexp op1)).

(** [Decimal.__sub__] *)
Definition sub (a b : Decimal) : Decimal := add a (negate b).

(** [Decimal.__mul__] *)
Definition mul (a b : Decimal) : Decimal :=
  fix_ (mkDec (xorb (dsign a) (dsign b)) (dint a * dint b)%N (dexp a + dexp b)).

(** The loop of [__truediv__] that strips trailing zeros of an exact
    quotient while the exponent is below the ideal one. *)
Fixpoint strip_zeros (fuel : nat) (coeff : N) (exp ideal : Z) : N * Z :=
  match fuel with
  | O => (coeff, exp)
  | S f =>
      if (exp <? ideal) && (coeff mod 10 =? 0)%N
      then strip_zeros f (coeff / 10)%N (exp + 1) ideal
      else (coeff, exp)
  end.

(** [Decimal.__truediv__]; [None] stands for the exceptions DivisionByZero
    and InvalidOperation, both trapped in the default context. *)
Definition div (a b : Decimal) : option Decimal :=
  let sign := xorb (dsign a) (dsign b) in
  if zero b then None
  else if zero a then Some (fix_ (mkDec sign 0 (dexp a - dexp b)))
  else
    let shift := ndigits (dint b) - ndigits (dint a) + prec + 1 in
    let exp := dexp a - dexp b - shift in
    let num := if 0 <=? shift then (dint a * 10 ^ Z.to_N shift)%N else dint a in
    let den := if 0 <=? shift then dint b else (dint b * 10 ^ Z.to_N (- shift))%N in
    let coeff := (num / den)%N in
    let remainder := (num mod den)%N in
    if negb (remainder =? 0)%N then
      let coeff' := if (coeff mod 5 =? 0)%N then (coeff + 1)%N else coeff in
      Some (fix_ (mkDec sign coeff' exp))
    else
      let '(c, e) :=
        strip_zeros (Z.to_nat (dexp a - dexp b - exp)) coeff exp
                    (dexp a - dexp b) in
      Some (fix_ (mkDec sign c e)).

(** The signed coefficient of [d] at the exponent [e <= dexp d]. *)
Definition scaled (d : Decimal) (e : Z) : Z :=
  (if dsign d then -1 else 1) * Z.of_N (dint d) * 10 ^ (dexp d - e).

(** [Decimal._cmp]: the comparison of the two values, which is exact. *)
Definition cmp (a b : Decimal) : comparison :=
  let e := Z.min (dexp a) (dexp b) in
  scaled a e ?= scaled b e.

Definition lt (a b : Decimal) : bool :=
  match cmp a b with Lt => true | _ => false end.
Definition gt (a b : Decimal) : bool :=
  match cmp a b with Gt => true | _ => false end.

(** [quantize(Decimal(1).scaleb(-places))] in a context of precision [p]:
    [None] stands for InvalidOperation (too many digits). *)
Definition quantize (p : Z) (places : Z) (d : Decimal) : option Decimal :=
  let e := - places in
  if zero d then Some (mkDec (dsign d) 0 e)
  else if p <? ndigits (dint d) + dexp d - 1 - e + 1 then None
  else
    let ans := rescale d e in
    if p <? ndigits (dint ans) then None else Some ans.

(** A decimal written with two places: [cents 1800] is [Decimal('18.00')]. *)
Definition cents (n : Z) : Decimal := mkDec (n <? 0) (Z.abs_N n) (-2).

(** The signed coefficient. *)
Definition signed (d : Decimal) : Z :=
  if dsign d then - Z.of_N (dint d) else Z.of_N (dint d).

(** The rational number a decimal stands for. *)
Definition value (d : Decimal) : Q := (inject_Z (signed d) * 10 ^ dexp d)%Q.

(** The magnitude and the sign of a decimal, as rationals. *)
Definition mag (d : Decimal) : Q := (inject_Z (Z.of_N (dint d)) * 10 ^ dexp d)%Q.
Definition sgn (b : bool) : Q := if b then (-1)%Q else 1%Q.

(** The shift by which [div] scales its numerator. *)
Definition div_shift (a b : Decimal) : Z :=
  ndigits (dint b) - ndigits (dint a) + prec + 1.

(** What fitting a column of ten digits and two places bounds. *)
Definition bounded (d : Decimal) : Prop :=
  -2 <= dexp d /\ (dint d <> 0%N -> Z.of_N (dint d) < 10 ^ 10 /\ dexp d <= 9).

End Dec.


(** ** The parts of Python's [str] and [uuid] that [Sale.save] uses *)

Module Py.

Definition hex_digits : list ascii :=
  ["0"; "1"; "2"; "3"; "4"; "5"; "6"; "7"; "8"; "9";
   "a"; "b"; "c"; "d"; "e"; "f"]%char.

Definition hex_digit (n : N) : ascii := nth (N.to_nat n) hex_digits "0"%char.

(** ['%0<width>x' % n] for [n < 16 ^ width], most significant digit first. *)
Fixpoint hex_fixed (width : nat) (n : N) : string :=
  match width with
  | O => EmptyString
  | S w => String (hex_digit ((n / 16 ^ N.of_nat w) mod 16)%N) (hex_fixed w n)
  end.

(** [str.upper] on one character of the ASCII range. *)
Definition upper_ascii (c : ascii) : ascii :=
  let n := nat_of_ascii c in
  if (97 <=? n)%nat && (n <=? 122)%nat then ascii_of_nat (n - 32) else c.

Fixpoint upper (s : string) : string :=
  match s with
  | EmptyString => EmptyString
  | String c s' => String (upper_ascii c) (upper s')
  end.

(** [uuid.uuid4().int]: the 16 bytes of [os.urandom(16)], read as the
    big-endian integer [rnd], with the variant and version bits set as
    [UUID.__init__] does for [version=4]. *)
Definition uuid4_int (rnd : N) : N :=
  let i := (rnd mod 2 ^ 128)%N in
  let i := N.ldiff i (N.shiftl 0xc000 48) in
  let i := N.lor i (N.shiftl 0x8000 48) in
  let i := N.ldiff i (N.shiftl 0xf000 64) in
  N.lor i (N.shiftl 4 76).

(** [uuid.uuid4().hex] *)
Definition uuid4_hex (rnd : N) : string := hex_fixed 32 (uuid4_int rnd).

(** [s[:n]] *)
Definition prefix (n : nat) (s : string) : string := String.substring 0 n s.

(** Truth value of a [str]. *)
Definition truthy (s : string) : bool :=
  match s with EmptyString => false | _ => true end.

End Py.

(** ** The parts of Django's model layer that the models use *)

Module Django.

Inductive error :=
| IntegrityError     (* a database constraint refused the statement *)
| ProtectedError     (* [on_delete=PROTECT] refused a delete *)
| InvalidOperation.  (* a decimal does not fit its column *)

Inductive result (A : Type) :=
| Ok (a : A)
| Err (e : error).
Arguments Ok {A} a.
Arguments Err {A} e.

Definition bind {A B} (r : result A) (k : A -> result B) : result B :=
  match r with Ok a => k a | Err e => Err e end.

(** A database check: [IntegrityError] unless [b]. *)
Definition check (b : bool) : result unit :=
  if b then Ok tt else Err IntegrityError.

Inductive on_delete := PROTECT | CASCADE.

(** [MinValueValidator(limit)] on a decimal: an error when
    [value < limit]. The result is [true] when the value passes. *)
Definition min_value_decimal (limit value : Dec.Decimal) : bool :=
  negb (Dec.lt value limit).

(** [MinValueValidator(limit)] on an integer. *)
Definition min_value_int (limit value : Z) : bool := negb (value <? limit).

(** [DecimalValidator(max_digits, decimal_places)] *)
Definition decimal_validator (max_digits decimal_places : Z)
    (d : Dec.Decimal) : bool :=
  let len := Dec.ndigits (Dec.dint d) in
  let exponent := Dec.dexp d in
  let '(digits, decimals) :=
    if 0 <=? exponent
    then (if (Dec.dint d =? 0)%N then len else len + exponent, 0)
    else if len <? Z.abs exponent
         then (Z.abs exponent, Z.abs exponent)
         else (len, Z.abs exponent) in
  let whole_digits := digits - decimals in
  negb (max_digits <? digits)
  && negb (decimal_places <? decimals)
  && negb (max_digits - decimal_places <? whole_digits).

(** [MaxLengthValidator] and the blank check of a [CharField]. *)
Definition char_field (max_length : nat) (blank : bool) (s : string) : bool :=
  if blank && negb (Py.truthy s) then true
  else Py.truthy s && (String.length s <=? max_length)%nat.

(** The choices check of a field. *)
Definition in_choices (choices : list (string * string)) (s : string) : bool :=
  bool_decide (s ∈ choices.*1).

(** What the database adapter writes for a [DecimalField]:
    [format_number(value, max_digits, decimal_places)]. *)
Definition adapt_decimal (max_digits decimal_places : Z) (d : Dec.Decimal)
    : result Dec.Decimal :=
  match Dec.quantize max_digits decimal_places d with
  | Some q => Ok q
  | None => Err InvalidOperation
  end.


(** What the deletion collector does with the table at the other end of a
    foreign key to the row [pk] being deleted: the table afterwards, or
    [ProtectedError]. *)
Definition collect {R} (policy : on_delete) (fk : R -> nat) (pk : nat)
    (tbl : gmap nat R) : result (gmap nat R) :=
  match policy with
  | PROTECT =>
      if decide (map_Exists (fun _ r => fk r = pk) tbl)
      then Err ProtectedError else Ok tbl
  | CASCADE => Ok (filter (fun kv => fk kv.2 <> pk) tbl)
  end.

(** The primary key a save writes to: the instance's own, or the next of
    the table's sequence. *)
Definition target_pk (pk : option nat) (next : nat) : nat :=
  match pk with Some k => k | None => next end.

(** A unique column: no other row holds the value. *)
Definition unique_among {R} (col : R -> string) (self : option nat)
    (v : string) (tbl : gmap nat R) : bool :=
  bool_decide (map_Forall (fun k r => Some k = self \/ col r <> v) tbl).

End Django.

Import Django.

#[export] Instance result_bind : MBind result :=
  fun A B k r => Django.bind r k.
#[export] Instance result_ret : MRet result := @Django.Ok.

(** ** inventory/models.py *)

Module Product.

Definition CATEGORY_CHOICES : list (string * string) :=
  [("LIPS", "Lips"); ("EYES", "Eyes"); ("FACE", "Face");
   ("SKINCARE", "Skincare"); ("ACCESSORIES", "Accessories")]%string.

(** The image and the two timestamps are left out. *)
Record t := mk {
  id : option nat;
  sku : string;
  name : string;
  brand : string;
  category : string;
  description : string;
  cost_price : Dec.Decimal;
  selling_price : Dec.Decimal;
  stock_quantity : Z;
  restock_threshold : Z;
  is_active : bool
}.

Definition needs_restock (self : t) : bool :=
  stock_quantity self <=? restock_threshold self.

Definition profit_per_unit (self : t) : Dec.Decimal :=
  Dec.sub (selling_price self) (cost_price self).

(** [None] stands for an exception of the division. *)
Definition profit_percentage (self : t) : option Dec.Decimal :=
  if Dec.gt (cost_price self) (Dec.of_int 0)
  then q ← Dec.div (profit_per_unit self) (cost_price self);
       Some (Dec.mul q (Dec.of_int 100))
  else Some (Dec.cents 0).

(** [clean_fields]: the names of the fields whose validation fails. The
    range validators that the database backend adds to integer fields are
    left out. *)
Definition clean_fields (self : t) : list string :=
  (if char_field 50 false (sku self) then [] else ["sku"])
  ++ (if char_field 200 false (name self) then [] else ["name"])
  ++ (if char_field 100 false (brand self) then [] else ["brand"])
  ++ (if char_field 20 false (category self)
         && in_choices CATEGORY_CHOICES (category self)
      then [] else ["category"])
  ++ (if min_value_decimal (Dec.cents 1) (cost_price self)
         && decimal_validator 10 2 (cost_price self)
      then [] else ["cost_price"])
  ++ (if min_value_decimal (Dec.cents 1) (selling_price self)
         && decimal_validator 10 2 (selling_price self)
      then [] else ["selling_price"])%string.

End Product.

Module StockReceipt.

Definition product_on_delete : on_delete := PROTECT.
Definition received_by_on_delete : on_delete := PROTECT.

(** [received_at] is left out. *)
Record t := mk {
  id : option nat;
  product : nat;
  quantity : Z;
  cost_price_at_receipt : Dec.Decimal;
  supplier_name : string;
  supplier_notes : string;
  received_by : nat
}.

End StockReceipt.

(** ** sales/models.py *)

Module Sale.

Definition PAYMENT_METHODS : list (string * string) :=
  [("CASH", "Cash"); ("CARD", "Card"); ("UPI", "UPI/QR")]%string.

Definition cashier_on_delete : on_delete := PROTECT.

(** [created_at] is left out. *)
Record t := mk {
  id : option nat;
  order_id : string;
  cashier : nat;
  subtotal : Dec.Decimal;
  tax : Dec.Decimal;
  total : Dec.Decimal;
  profit : Dec.Decimal;
  payment_method : string;
  notes : string
}.

Definition with_order_id (self : t) (o : string) : t :=
  mk (id self) o (cashier self) (subtotal self) (tax self) (total self)
     (profit self) (payment_method self) (notes self).

(** The body of [save] before [super().save()]; [rnd] is what
    [os.urandom] gives to [uuid.uuid4]. *)
Definition save_fields (rnd : N) (self : t) : t :=
  if negb (Py.truthy (order_id self))
  then with_order_id self
         ("#ORD-" ++ Py.upper (Py.prefix 8 (Py.uuid4_hex rnd)))%string
  else self.

(** [clean_fields], without the check that the cashier exists. *)
Definition clean_fields (self : t) : list string :=
  (if char_field 20 false (order_id self) then [] else ["order_id"])
  ++ (if min_value_decimal (Dec.cents 0) (subtotal self)
         && decimal_validator 10 2 (subtotal self)
      then [] else ["subtotal"])
  ++ (if min_value_decimal (Dec.cents 0) (tax self)
         && decimal_validator 10 2 (tax self)
      then [] else ["tax"])
  ++ (if min_value_decimal (Dec.cents 0) (total self)
         && decimal_validator 10 2 (total self)
      then [] else ["total"])
  ++ (if decimal_validator 10 2 (profit self) then [] else ["profit"])
  ++ (if char_field 10 false (payment_method self)
         && in_choices PAYMENT_METHODS (payment_method self)
      then [] else ["payment_method"])%string.

End Sale.

Module SaleItem.

Definition sale_on_delete : on_delete := CASCADE.
Definition product_on_delete : on_delete := PROTECT.

(** [subtotal] and [profit] are [None] on an instance built without
    them. *)
Record t := mk {
  id : option nat;
  sale : nat;
  product : nat;
  quantity : Z;
  unit_price : Dec.Decimal;
  unit_cost : Dec.Decimal;
  subtotal : option Dec.Decimal;
  profit : option Dec.Decimal
}.

(** [not x] for a field that holds [None] or a decimal. *)
Definition falsy (x : option Dec.Decimal) : bool :=
  match x with None => true | Some d => negb (Dec.truthy d) end.

(** The body of [save] before [super().save()]. *)
Definition save_fields (self : t) : t :=
  let subtotal' :=
    if falsy (subtotal self)
    then Some (Dec.mul (unit_price self) (Dec.of_int (quantity self)))
    else subtotal self in
  let profit' :=
    if falsy (profit self)
    then Some (Dec.mul (Dec.sub (unit_price self) (unit_cost self))
                       (Dec.of_int (quantity self)))
    else profit self in
  mk (id self) (sale self) (product self) (quantity self)
     (unit_price self) (unit_cost self) subtotal' profit'.

Definition decimal_ok (x : option Dec.Decimal) : bool :=
  match x with None => false | Some d => decimal_validator 10 2 d end.

(** [clean_fields], without the checks that the sale and the product
    exist. *)
Definition clean_fields (self : t) : list string :=
  (if min_value_int 1 (quantity self) then [] else ["quantity"])
  ++ (if decimal_validator 10 2 (unit_price self) then [] else ["unit_price"])
  ++ (if decimal_validator 10 2 (unit_cost self) then [] else ["unit_cost"])
  ++ (if decimal_ok (subtotal self) then [] else ["subtotal"])
  ++ (if decimal_ok (profit self) then [] else ["profit"])%string.

End SaleItem.

(** ** The database and the model operations *)

(** The four tables of the models, the primary keys of the user table, and
    the sequence of each AUTOINCREMENT primary key. *)
Record Store := mkStore {
  users : gset nat;
  products : gmap nat Product.t;
  stock_receipts : gmap nat StockReceipt.t;
  sales : gmap nat Sale.t;
  sale_items : gmap nat SaleItem.t;
  next_product : nat;
  next_receipt : nat;
  next_sale : nat;
  next_item : nat
}.

Definition empty_store : Store := mkStore ∅ ∅ ∅ ∅ ∅ 1 1 1 1.

(** [Product.save()], inherited from [models.Model]: one INSERT or UPDATE
    of the product's row, under the constraints of the table. *)
Definition Product_save (st : Store) (p : Product.t)
    : result (Store * Product.t) :=
  cost ← adapt_decimal 10 2 (Product.cost_price p);
  price ← adapt_decimal 10 2 (Product.selling_price p);
  let k := target_pk (Product.id p) (next_product st) in
  check (unique_among Product.sku (Some k) (Product.sku p) (products st));;
  check (0 <=? Product.stock_quantity p);;
  check (0 <=? Product.restock_threshold p);;
  let row :=
    Product.mk (Some k) (Product.sku p) (Product.name p) (Product.brand p)
      (Product.category p) (Product.description p) cost price
      (Product.stock_quantity p) (Product.restock_threshold p)
      (Product.is_active p) in
  let self :=
    Product.mk (Some k) (Product.sku p) (Product.name p) (Product.brand p)
      (Product.category p) (Product.description p) (Product.cost_price p)
      (Product.selling_price p) (Product.stock_quantity p)
      (Product.restock_threshold p) (Product.is_active p) in
  Ok (mkStore (users st) (<[k := row]> (products st)) (stock_receipts st)
        (sales st) (sale_items st)
        (Nat.max (next_product st) (S k)) (next_receipt st) (next_sale st)
        (next_item st),
      self).

(** [StockReceipt.save()], inherited from [models.Model]: the class
    overrides neither [save] nor anything [save] calls. *)
Definition StockReceipt_save (st : Store) (r : StockReceipt.t)
    : result (Store * StockReceipt.t) :=
  cost ← adapt_decimal 10 2 (StockReceipt.cost_price_at_receipt r);
  let k := target_pk (StockReceipt.id r) (next_receipt st) in
  check (0 <=? StockReceipt.quantity r);;
  check (bool_decide (is_Some (products st !! StockReceipt.product r)));;
  check (bool_decide (StockReceipt.received_by r ∈ users st));;
  let row :=
    StockReceipt.mk (Some k) (StockReceipt.product r) (StockReceipt.quantity r)
      cost (StockReceipt.supplier_name r) (StockReceipt.supplier_notes r)
      (StockReceipt.received_by r) in
  let self :=
    StockReceipt.mk (Some k) (StockReceipt.product r) (StockReceipt.quantity r)
      (StockReceipt.cost_price_at_receipt r) (StockReceipt.supplier_name r)
      (StockReceipt.supplier_notes r) (StockReceipt.received_by r) in
  Ok (mkStore (users st) (products st) (<[k := row]> (stock_receipts st))
        (sales st) (sale_items st)
        (next_product st) (Nat.max (next_receipt st) (S k)) (next_sale st)
        (next_item st),
      self).

(** [Sale.save()]: the order id is filled in, then [super().save()]. *)
Definition Sale_save (rnd : N) (st : Store) (s0 : Sale.t)
    : result (Store * Sale.t) :=
  let s := Sale.save_fields rnd s0 in
  subtotal ← adapt_decimal 10 2 (Sale.subtotal s);
  tax ← adapt_decimal 10 2 (Sale.tax s);
  total ← adapt_decimal 10 2 (Sale.total s);
  profit ← adapt_decimal 10 2 (Sale.profit s);
  let k := target_pk (Sale.id s) (next_sale st) in
  check (unique_among Sale.order_id (Some k) (Sale.order_id s) (sales st));;
  check (bool_decide (Sale.cashier s ∈ users st));;
  let row :=
    Sale.mk (Some k) (Sale.order_id s) (Sale.cashier s) subtotal tax total
      profit (Sale.payment_method s) (Sale.notes s) in
  let self :=
    Sale.mk (Some k) (Sale.order_id s) (Sale.cashier s) (Sale.subtotal s)
      (Sale.tax s) (Sale.total s) (Sale.profit s) (Sale.payment_method s)
      (Sale.notes s) in
  Ok (mkStore (users st) (products st) (stock_receipts st)
        (<[k := row]> (sales st)) (sale_items st)
        (next_product st) (next_receipt st) (Nat.max (next_sale st) (S k))
        (next_item st),
      self).

(** A nullable Python value written to a NOT NULL decimal column. *)
Definition adapt_required (x : option Dec.Decimal) : result Dec.Decimal :=
  match x with
  | Some d => adapt_decimal 10 2 d
  | None => Err IntegrityError
  end.

(** [SaleItem.save()]: subtotal and profit are filled in, then
    [super().save()]. *)
Definition SaleItem_save (st : Store) (i0 : SaleItem.t)
    : result (Store * SaleItem.t) :=
  let i := SaleItem.save_fields i0 in
  price ← adapt_decimal 10 2 (SaleItem.unit_price i);
  cost ← adapt_decimal 10 2 (SaleItem.unit_cost i);
  subtotal ← adapt_required (SaleItem.subtotal i);
  profit ← adapt_required (SaleItem.profit i);
  let k := target_pk (SaleItem.id i) (next_item st) in
  check (0 <=? SaleItem.quantity i);;
  check (bool_decide (is_Some (sales st !! SaleItem.sale i)));;
  check (bool_decide (is_Some (products st !! SaleItem.product i)));;
  let row :=
    SaleItem.mk (Some k) (SaleItem.sale i) (SaleItem.product i)
      (SaleItem.quantity i) price cost (Some subtotal) (Some profit) in
  let self :=
    SaleItem.mk (Some k) (SaleItem.sale i) (SaleItem.product i)
      (SaleItem.quantity i) (SaleItem.unit_price i) (SaleItem.unit_cost i)
      (SaleItem.subtotal i) (SaleItem.profit i) in
  Ok (mkStore (users st) (products st) (stock_receipts st) (sales st)
        (<[k := row]> (sale_items st))
        (next_product st) (next_receipt st) (next_sale st)
        (Nat.max (next_item st) (S k)),
      self).

(** [Product.delete()]: the collector visits the two foreign keys that
    point to a product, then the row is deleted. *)
Definition Product_delete (st : Store) (pk : nat) : result Store :=
  receipts ← collect StockReceipt.product_on_delete StockReceipt.product pk
               (stock_receipts st);
  items ← collect SaleItem.product_on_delete SaleItem.product pk
            (sale_items st);
  Ok (mkStore (users st) (delete pk (products st)) receipts (sales st) items
        (next_product st) (next_receipt st) (next_sale st) (next_item st)).

(** [Sale.delete()]: the collector visits the foreign key of the items,
    then the row is deleted. *)
Definition Sale_delete (st : Store) (pk : nat) : result Store :=
  items ← collect SaleItem.sale_on_delete SaleItem.sale pk (sale_items st);
  Ok (mkStore (users st) (products st) (stock_receipts st)
        (delete pk (sales st)) items
        (next_product st) (next_receipt st) (next_sale st) (next_item st)).

(** One call of the model layer. *)
Inductive call :=
| SaveProduct (p : Product.t)
| SaveReceipt (r : StockReceipt.t)
| SaveSale (rnd : N) (s : Sale.t)
| SaveSaleItem (i : SaleItem.t)
| DeleteProduct (pk : nat)
| DeleteSale (pk : nat).

(** The store after a call; a call that raises leaves the store as it
    was. *)
Definition step (st : Store) (c : call) : Store :=
  let after {A} (r : result (Store * A)) : Store :=
    match r with Ok (st', _) => st' | Err _ => st end in
  match c with
  | SaveProduct p => after (Product_save st p)
  | SaveReceipt r => after (StockReceipt_save st r)
  | SaveSale rnd s => after (Sale_save rnd st s)
  | SaveSaleItem i => after (SaleItem_save st i)
  | DeleteProduct pk =>
      match Product_delete st pk with Ok st' => st' | Err _ => st end
  | DeleteSale pk =>
      match Sale_delete st pk with Ok st' => st' | Err _ => st end
  end.

(** The store after a sequence of calls. *)
Definition run (st : Store) (cs : list call) : Store := foldl step st cs.

(** The stock a product row holds, [None] when there is no such row. *)
Definition stock_of (st : Store) (pk : nat) : option Z :=
  Product.stock_quantity <$> products st !! pk.

(** [Sale.full_clean()]: [clean_fields] with the check that the cashier
    exists, then [validate_unique] on the order id when it passed. An
    instance that has a primary key is one loaded from the database. *)
Definition Sale_full_clean (st : Store) (s : Sale.t) : list string :=
  let errors :=
    Sale.clean_fields s
    ++ (if bool_decide (Sale.cashier s ∈ users st) then [] else ["cashier"]) in
  errors
  ++ (if bool_decide ("order_id" ∈ errors)
         || unique_among Sale.order_id (Sale.id s) (Sale.order_id s) (sales st)
      then [] else ["order_id"])%string.

(** [SaleItem.full_clean()]: [clean_fields] with the checks that the sale
    and the product exist; the model has no unique field. *)
Definition SaleItem_full_clean (st : Store) (i : SaleItem.t) : list string :=
  SaleItem.clean_fields i
  ++ (if bool_decide (is_Some (sales st !! SaleItem.sale i))
      then [] else ["sale"])
  ++ (if bool_decide (is_Some (products st !! SaleItem.product i))
      then [] else ["product"])%string.

(** ** The specification's reading of stock and totals *)

(** In the words of the specification: what a call changes in the stock of
    the product [pk], a committed receipt adding its quantity and a
    committed sale line taking its quantity. *)
Definition spec_delta (st : Store) (pk : nat) (c : call) : Z :=
  match c with
  | SaveReceipt r =>
      match StockReceipt_save st r with
      | Ok _ =>
          if decide (StockReceipt.product r = pk)
          then StockReceipt.quantity r else 0
      | Err _ => 0
      end
  | SaveSaleItem i =>
      match SaleItem_save st i with
      | Ok _ =>
          if decide (SaleItem.product i = pk)
          then - SaleItem.quantity i else 0
      | Err _ => 0
      end
  | _ => 0
  end.

(** In the words of the specification: the stock of [pk] after the calls
    [cs], from the stock [q]. *)
Fixpoint spec_stock (st : Store) (pk : nat) (cs : list call) (q : Z) : Z :=
  match cs with
  | [] => q
  | c :: cs' => spec_stock (step st c) pk cs' (q + spec_delta st pk c)
  end.






(** ** Invariants of the store *)

(** No product row holds a negative stock. *)
Definition stock_nonneg (st : Store) : Prop :=
  map_Forall (fun _ p => 0 <= Product.stock_quantity p) (products st).



(** A decimal that fits a column of ten digits, two of them decimal
    places. *)
Definition fits (d : Dec.Decimal) : Prop := decimal_validator 10 2 d = true.

(** In the words of the specification: the stock of [pk] after the calls
    [cs] is the one the receipts and the sales add up to. *)
Definition spec_stock_conserved (st : Store) (pk : nat) (cs : list call)
    : Prop :=
  forall q, stock_of st pk = Some q ->
            stock_of (run st cs) pk = Some (spec_stock st pk cs q).

(** The calls that commit the rows of a sale. *)
Definition is_sale_call (c : call) : Prop :=
  match c with
  | SaveSale _ _ | SaveSaleItem _ => True
  | _ => False
  end.

(** ** A small shop, for the examples *)

Module Example.

Definition lipstick : Product.t :=
  Product.mk None "LIP-001" "Velvet Lipstick" "Cosmo" "LIPS" ""
    (Dec.cents 1000) (Dec.cents 1800) 5 10 true.

(** One user, one product with five units in stock. *)
Definition shop : Store :=
  run (mkStore {[1%nat]} ∅ ∅ ∅ ∅ 1 1 1 1) [SaveProduct lipstick].

Definition receipt : StockReceipt.t :=
  StockReceipt.mk None 1 5 (Dec.cents 1000) "" "" 1.

Definition sale : Sale.t :=
  Sale.mk None "" 1 (Dec.cents 3600) (Dec.cents 0) (Dec.cents 3600)
    (Dec.cents 1600) "CASH" "".

Definition line : SaleItem.t :=
  SaleItem.mk None 1 1 2 (Dec.cents 1800) (Dec.cents 1000) None None.

(** The shop after one sale of two lipsticks. *)
Definition shop_sold : Store :=
  run shop [SaveSale 0x0949b0f6f002431384499050de38f34e sale; SaveSaleItem line].

(** The shop after one receipt of five lipsticks. *)
Definition shop_received : Store := run shop [SaveReceipt receipt].

Definition dearer_lipstick : Product.t :=
  Product.mk (Some 1%nat) "LIP-001" "Velvet Lipstick" "Cosmo" "LIPS" ""
    (Dec.cents 1000) (Dec.cents 2500) 5 10 true.

(** A line whose caller supplies a subtotal and a profit of zero. *)
Definition zero_line : SaleItem.t :=
  SaleItem.mk None 1 1 2 (Dec.cents 1800) (Dec.cents 1000)
    (Some (Dec.cents 0)) (Some (Dec.cents 0)).


(** A sale at a loss. *)
Definition loss_sale : Sale.t :=
  Sale.mk None "#ORD-TEST0002" 1 (Dec.cents 1000) (Dec.cents 0)
    (Dec.cents 1000) (Dec.cents (-100)) "CARD" "".

(** A line with a negative price and no cost. *)
Definition free_line : SaleItem.t :=
  SaleItem.mk None 1 1 1 (Dec.cents (-500)) (Dec.cents 0)
    (Some (Dec.cents (-500))) (Some (Dec.cents (-500))).


End Example.

(** ** accounts/models.py *)

Module User.

Definition ROLE_CHOICES : list (string * string) :=
  [("OWNER", "Owner"); ("EMPLOYEE", "Employee")]%string.

(** The fields that [AbstractUser] brings, other than the username, are
    left out. *)
Record t := mk {
  id : option nat;
  username : string;
  role : string
}.

(** The default of the [role] field. *)
Definition role_default : string := "EMPLOYEE".

Definition is_owner (self : t) : bool := String.eqb (role self) "OWNER".

Definition is_employee (self : t) : bool := String.eqb (role self) "EMPLOYEE".

(** [get_role_display()]: the label of the role among the choices, the
    role itself when it is none of them. *)
Definition get_role_display (self : t) : string :=
  match list_find (fun c => c.1 = role self) ROLE_CHOICES with
  | Some (_, c) => c.2
  | None => role self
  end.

(** [__str__] *)
Definition str (self : t) : string :=
  (username self ++ " (" ++ get_role_display self ++ ")")%string.

(** The validation of the [role] field. *)
Definition clean_role (self : t) : bool :=
  char_field 10 false (role self) && in_choices ROLE_CHOICES (role self).

End User.

(** [User.delete()], as far as the models of the shop go: the collector
    visits the foreign keys of the sales and of the receipts; the tables of
    the authentication framework that point to a user are left out. *)
Definition User_delete (st : Store) (pk : nat) : result Store :=
  sales' ← collect Sale.cashier_on_delete Sale.cashier pk (sales st);
  receipts ← collect StockReceipt.received_by_on_delete
               StockReceipt.received_by pk (stock_receipts st);
  Ok (mkStore (users st ∖ {[pk]}) (products st) receipts sales'
        (sale_items st)
        (next_product st) (next_receipt st) (next_sale st) (next_item st)).

(** ** Validation of a stock receipt *)

(** [StockReceipt.clean_fields()] *)
Definition StockReceipt_clean_fields (r : StockReceipt.t) : list string :=
  (if min_value_int 1 (StockReceipt.quantity r) then [] else ["quantity"])
  ++ (if min_value_decimal (Dec.cents 1) (StockReceipt.cost_price_at_receipt r)
         && decimal_validator 10 2 (StockReceipt.cost_price_at_receipt r)
      then [] else ["cost_price_at_receipt"])
  ++ (if char_field 200 true (StockReceipt.supplier_name r)
      then [] else ["supplier_name"])%string.

(** [StockReceipt.full_clean()]: [clean_fields] with the checks that the
    product and the receiver exist; the model has no unique field. *)
Definition StockReceipt_full_clean (st : Store) (r : StockReceipt.t)
    : list string :=
  StockReceipt_clean_fields r
  ++ (if bool_decide (is_Some (products st !! StockReceipt.product r))
      then [] else ["product"])
  ++ (if bool_decide (StockReceipt.received_by r ∈ users st)
      then [] else ["received_by"])%string.

(** ** cosmoshop/settings.py *)

Module Settings.

(** [str.isspace] on one character, for the code points below 256. *)
Definition is_space (c : ascii) : bool :=
  let n := nat_of_ascii c in
  ((9 <=? n) && (n <=? 13) || (28 <=? n) && (n <=? 32)
   || (n =? 133) || (n =? 160))%nat.

(** [str.lstrip()] *)
Fixpoint lstrip (s : string) : string :=
  match s with
  | EmptyString => EmptyString
  | String c s' => if is_space c then lstrip s' else s
  end.

(** [str.rstrip()] *)
Fixpoint rstrip (s : string) : string :=
  match s with
  | EmptyString => EmptyString
  | String c s' =>
      match rstrip s' with
      | EmptyString => if is_space c then EmptyString else String c EmptyString
      | r => String c r
      end
  end.

(** [str.strip()] *)
Definition strip (s : string) : string := rstrip (lstrip s).

(** [str.split(sep)] for a separator of one character. *)
Fixpoint split (sep : ascii) (s : string) : list string :=
  match s with
  | EmptyString => [EmptyString]
  | String c s' =>
      if Ascii.eqb c sep then EmptyString :: split sep s'
      else match split sep s' with
           | [] => [String c EmptyString]
           | p :: ps => String c p :: ps
           end
  end.

(** [sep.join(parts)] *)
Fixpoint join (sep : string) (parts : list string) : string :=
  match parts with
  | [] => EmptyString
  | [p] => p
  | p :: ps => (p ++ sep ++ join sep ps)%string
  end.

(** The cast of the two list settings:
    [lambda v: [s.strip() for s in v.split(',')]]. *)
Definition cast_list (v : string) : list string := strip <$> split "," v.

(** [config(name, default=..., cast=...)]: the value of the environment
    when it has one, the default otherwise, through the cast. *)
Definition config {A} (env : option string) (default : string)
    (cast : string -> A) : A :=
  cast (match env with Some v => v | None => default end).

Definition ALLOWED_HOSTS (env : option string) : list string :=
  config env "localhost,127.0.0.1" cast_list.

Definition CORS_ALLOWED_ORIGINS (env : option string) : list string :=
  config env "http://localhost:5173,http://localhost:3000" cast_list.

(** The number of occurrences of a character. *)
Fixpoint count (c : ascii) (s : string) : nat :=
  match s with
  | EmptyString => 0
  | String c' s' => (if Ascii.eqb c' c then 1 else 0) + count c s'
  end.

(** The first and the last character of a string. *)
Definition first_char (s : string) : option ascii :=
  match s with EmptyString => None | String c _ => Some c end.

Fixpoint last_char (s : string) : option ascii :=
  match s with
  | EmptyString => None
  | String c EmptyString => Some c
  | String _ s' => last_char s'
  end.

End Settings.

(** ** More invariants of the store *)

(** Every foreign key of a row points to a row. *)
Definition refs_exist (st : Store) : Prop :=
  map_Forall (fun _ r =>
      is_Some (products st !! StockReceipt.product r)
      /\ StockReceipt.received_by r ∈ users st) (stock_receipts st)
  /\ map_Forall (fun _ s => Sale.cashier s ∈ users st) (sales st)
  /\ map_Forall (fun _ i =>
         is_Some (sales st !! SaleItem.sale i)
         /\ is_Some (products st !! SaleItem.product i)) (sale_items st).

(** No two product rows hold the same SKU. *)
Definition skus_unique (st : Store) : Prop :=
  forall k1 k2 p1 p2,
    products st !! k1 = Some p1 -> products st !! k2 = Some p2 ->
    Product.sku p1 = Product.sku p2 -> k1 = k2.

Definition fits_opt (x : option Dec.Decimal) : Prop :=
  match x with Some d => fits d | None => False end.

(** One call of the model layer or the deletion of a user. *)
Inductive shop_call :=
| ModelCall (c : call)
| DeleteUser (pk : nat).

(** The store after such a call; a call that raises leaves the store as
    it was. *)
Definition shop_step (st : Store) (c : shop_call) : Store :=
  match c with
  | ModelCall c => step st c
  | DeleteUser pk =>
      match User_delete st pk with Ok st' => st' | Err _ => st end
  end.

Definition shop_run (st : Store) (cs : list shop_call) : Store :=
  foldl shop_step st cs.

(** * Theorems *)

(** ** What each operation leaves alone *)

Lemma check_Ok b u : check b = Ok u -> b = true.
Proof. by destruct b. Qed.

Ltac bind_inv H :=
  repeat match type of H with
    | context [mbind _ ?r] =>
        let E := fresh "E" in
        destruct r eqn:E; cbn [mbind result_bind Django.bind] in H;
        [| discriminate H]
    end;
  repeat match goal with
    | E : check _ = Ok _ |- _ => apply check_Ok in E
    end.

Lemma Product_save_Ok st p st' p' :
  Product_save st p = Ok (st', p') ->
  exists k row,
    products st' = <[k := row]> (products st)
    /\ 0 <= Product.stock_quantity row
    /\ stock_receipts st' = stock_receipts st
    /\ sales st' = sales st
    /\ sale_items st' = sale_items st
    /\ users st' = users st.
Proof.
  unfold Product_save. intros H. bind_inv H.
  injection H as <- <-. eexists _, _. cbn.
  split; [reflexivity|]. split; [|done].
  simpl. lia.
Qed.

Lemma StockReceipt_save_Ok st r st' r' :
  StockReceipt_save st r = Ok (st', r') ->
  exists k row,
    stock_receipts st' = <[k := row]> (stock_receipts st)
    /\ StockReceipt.product row = StockReceipt.product r
    /\ StockReceipt.quantity row = StockReceipt.quantity r
    /\ products st' = products st
    /\ sales st' = sales st
    /\ sale_items st' = sale_items st
    /\ users st' = users st.
Proof.
  unfold StockReceipt_save. intros H. bind_inv H.
  injection H as <- <-. eexists _, _. cbn. done.
Qed.

Lemma Sale_save_Ok rnd st s st' s' :
  Sale_save rnd st s = Ok (st', s') ->
  exists k row,
    sales st' = <[k := row]> (sales st)
    /\ Sale.order_id row = Sale.order_id (Sale.save_fields rnd s)
    /\ unique_among Sale.order_id (Some k) (Sale.order_id row) (sales st) = true
    /\ products st' = products st
    /\ stock_receipts st' = stock_receipts st
    /\ sale_items st' = sale_items st
    /\ users st' = users st.
Proof.
  unfold Sale_save. intros H. bind_inv H.
  injection H as <- <-. eexists _, _. cbn.
  split; [reflexivity|]. split; [reflexivity|]. split; [|done].
  done.
Qed.

Lemma SaleItem_save_Ok st i st' i' :
  SaleItem_save st i = Ok (st', i') ->
  exists k row,
    sale_items st' = <[k := row]> (sale_items st)
    /\ products st' = products st
    /\ stock_receipts st' = stock_receipts st
    /\ sales st' = sales st
    /\ users st' = users st.
Proof.
  unfold SaleItem_save. intros H. bind_inv H.
  injection H as <- <-. eexists _, _. cbn. done.
Qed.

Lemma collect_PROTECT_Ok {R} (fk : R -> nat) pk tbl tbl' :
  collect PROTECT fk pk tbl = Ok tbl' -> tbl' = tbl.
Proof. cbn. case_decide; congruence. Qed.

Lemma collect_PROTECT_refers {R} (fk : R -> nat) pk tbl k r :
  tbl !! k = Some r -> fk r = pk -> collect PROTECT fk pk tbl = Err ProtectedError.
Proof.
  intros Hk Hr. cbn. case_decide as Hex; [done|].
  exfalso. apply Hex. by exists k, r.
Qed.

Lemma Product_delete_Ok st pk st' :
  Product_delete st pk = Ok st' ->
  products st' = delete pk (products st)
  /\ stock_receipts st' = stock_receipts st
  /\ sales st' = sales st
  /\ sale_items st' = sale_items st
  /\ users st' = users st.
Proof.
  unfold Product_delete. intros H. bind_inv H.
  apply collect_PROTECT_Ok in E, E0. subst.
  by injection H as <-.
Qed.

Lemma Sale_delete_eq st pk :
  Sale_delete st pk
  = Ok (mkStore (users st) (products st) (stock_receipts st)
          (delete pk (sales st))
          (filter (fun kv => SaleItem.sale kv.2 <> pk) (sale_items st))
          (next_product st) (next_receipt st) (next_sale st) (next_item st)).
Proof. reflexivity. Qed.

Ltac step_cases c :=
  destruct c as [p|r|rnd s|i|pk|pk];
  cbn -[Product_save StockReceipt_save Sale_save SaleItem_save
        Product_delete Sale_delete].

Lemma step_stock_nonneg st c : stock_nonneg st -> stock_nonneg (step st c).
Proof.
  intros Hst. unfold stock_nonneg in *. step_cases c.
  - destruct (Product_save st p) as [[st' p']|] eqn:E; [|done].
    apply Product_save_Ok in E as (k & row & -> & Hrow & _).
    by apply map_Forall_insert_2.
  - destruct (StockReceipt_save st r) as [[st' r']|] eqn:E; [|done].
    by apply StockReceipt_save_Ok in E as (k & row & _ & _ & _ & -> & _).
  - destruct (Sale_save rnd st s) as [[st' s']|] eqn:E; [|done].
    by apply Sale_save_Ok in E as (k & row & _ & _ & _ & -> & _).
  - destruct (SaleItem_save st i) as [[st' i']|] eqn:E; [|done].
    by apply SaleItem_save_Ok in E as (k & row & _ & -> & _).
  - destruct (Product_delete st pk) as [st'|] eqn:E; [|done].
    apply Product_delete_Ok in E as (-> & _). by apply map_Forall_delete.
  - done.
Qed.

Lemma run_stock_nonneg cs : forall st, stock_nonneg st -> stock_nonneg (run st cs).
Proof.
  induction cs as [|c cs IH]; intros st Hst; [done|].
  cbn. apply IH. by apply step_stock_nonneg.
Qed.

Lemma step_sale_products st c : is_sale_call c -> products (step st c) = products st.
Proof.
  step_cases c; try done; intros _.
  - destruct (Sale_save rnd st s) as [[st' s']|] eqn:E; [|done].
    by apply Sale_save_Ok in E as (k & row & _ & _ & _ & -> & _).
  - destruct (SaleItem_save st i) as [[st' i']|] eqn:E; [|done].
    by apply SaleItem_save_Ok in E as (k & row & _ & -> & _).
Qed.

Lemma run_sales_products cs :
  forall st, Forall is_sale_call cs -> products (run st cs) = products st.
Proof.
  induction cs as [|c cs IH]; intros st Hcs; [done|].
  inversion Hcs as [|? ? Hc Hcs']; subst. cbn.
  rewrite IH by done. by apply step_sale_products.
Qed.

(** ** Stock receipts *)

(** C1, at the failing input. Saving a new StockReceipt of five units for
    a product that has five in stock commits the receipt row and leaves
    the product's [stock_quantity] at five: the model inserts the receipt
    and does nothing else. *)
Theorem StockReceipt_save_leaves_stock :
  exists r',
    StockReceipt_save Example.shop Example.receipt
    = Ok (Example.shop_received, r')
    /\ (StockReceipt.quantity <$> stock_receipts Example.shop_received !! 1%nat)
       = Some 5
    /\ stock_of Example.shop 1 = Some 5
    /\ stock_of Example.shop_received 1 = Some 5.
Proof.
  exists (StockReceipt.mk (Some 1%nat) 1 5 (Dec.cents 1000) "" "" 1).
  repeat split; vm_compute; reflexivity.
Qed.

(** ** Stock conservation *)

(** C2, as the specification states it, fails: after a committed sale of
    two units of a product with five in stock, the stock is still five,
    not three. *)
Lemma stock_not_conserved_by_sale :
  ~ spec_stock_conserved Example.shop 1
      [SaveSale 0x0949b0f6f002431384499050de38f34e Example.sale;
       SaveSaleItem Example.line].
Proof.
  intros H. specialize (H 5 eq_refl). vm_compute in H. discriminate H.
Qed.

(** C2, amended. From a store whose stocks are not negative, no sequence of
    calls reaches a negative [stock_quantity]; and saving a Sale or a
    SaleItem leaves the products as they were, so that after any sequence
    of committed sales every stock has its initial value. *)
Theorem stock_never_negative_sales_leave_stock st :
  stock_nonneg st ->
  (forall cs pk q, stock_of (run st cs) pk = Some q -> 0 <= q)
  /\ (forall cs pk,
        Forall is_sale_call cs -> stock_of (run st cs) pk = stock_of st pk).
Proof.
  intros Hst. split.
  - intros cs pk q Hq. unfold stock_of in Hq.
    destruct (products (run st cs) !! pk) as [p|] eqn:Hp; [|done].
    injection Hq as <-.
    by apply (run_stock_nonneg cs st Hst pk p).
  - intros cs pk Hcs. unfold stock_of. by rewrite run_sales_products.
Qed.

Lemma stock_never_negative_sales_leave_stock_witness :
  stock_nonneg (mkStore {[1%nat]} ∅ ∅ ∅ ∅ 1 1 1 1)
  /\ 0 <= 5.
Proof.
  assert (H : stock_nonneg (mkStore {[1%nat]} ∅ ∅ ∅ ∅ 1 1 1 1))
    by apply map_Forall_empty.
  split; [exact H|].
  apply (proj1 (stock_never_negative_sales_leave_stock _ H)
           [SaveProduct Example.lipstick; SaveReceipt Example.receipt;
            SaveSale 0x0949b0f6f002431384499050de38f34e Example.sale;
            SaveSaleItem Example.line] 1%nat 5).
  vm_compute. reflexivity.
Defined.

(** ** Snapshots *)

(** C3. Saving a Product, whatever its new prices, leaves every SaleItem
    row as it was: its [unit_price], [unit_cost], [subtotal] and [profit]
    are columns of its own, which only the item's own save writes. *)
Theorem Product_save_keeps_sale_items st p st' p' k i :
  Product_save st p = Ok (st', p') ->
  sale_items st !! k = Some i ->
  exists i',
    sale_items st' !! k = Some i'
    /\ SaleItem.unit_price i' = SaleItem.unit_price i
    /\ SaleItem.unit_cost i' = SaleItem.unit_cost i
    /\ SaleItem.subtotal i' = SaleItem.subtotal i
    /\ SaleItem.profit i' = SaleItem.profit i.
Proof.
  intros Hsave Hi.
  apply Product_save_Ok in Hsave as (_ & _ & _ & _ & _ & _ & Hitems & _).
  exists i. by rewrite Hitems.
Qed.

Lemma Product_save_keeps_sale_items_witness :
  (Product.selling_price
     <$> products (step Example.shop_sold (SaveProduct Example.dearer_lipstick))
         !! 1%nat)
  = Some (Dec.cents 2500)
  /\ exists i',
      sale_items (step Example.shop_sold (SaveProduct Example.dearer_lipstick))
        !! 1%nat = Some i'
      /\ SaleItem.unit_price i' = Dec.cents 1800
      /\ SaleItem.unit_cost i' = Dec.cents 1000
      /\ SaleItem.subtotal i' = Some (Dec.cents 3600)
      /\ SaleItem.profit i' = Some (Dec.cents 1600).
Proof.
  split; [vm_compute; reflexivity|].
  apply (Product_save_keeps_sale_items Example.shop_sold
           Example.dearer_lipstick
           (step Example.shop_sold (SaveProduct Example.dearer_lipstick))
           Example.dearer_lipstick 1%nat
           (SaleItem.mk (Some 1%nat) 1 1 2 (Dec.cents 1800) (Dec.cents 1000)
              (Some (Dec.cents 3600)) (Some (Dec.cents 1600))));
    vm_compute; reflexivity.
Defined.

(** ** Derived fields of a sale line *)

(** C5, at the failing input. A line of two units at 18.00, cost 10.00,
    whose caller supplies a subtotal of 0.00 and a profit of 0.00: [save]
    takes the zeros for missing values and stores 36.00 and 16.00. *)
Theorem SaleItem_save_overwrites_supplied_zero :
  SaleItem.subtotal Example.zero_line = Some (Dec.cents 0)
  /\ SaleItem.profit Example.zero_line = Some (Dec.cents 0)
  /\ SaleItem.subtotal (SaleItem.save_fields Example.zero_line)
     = Some (Dec.cents 3600)
  /\ SaleItem.profit (SaleItem.save_fields Example.zero_line)
     = Some (Dec.cents 1600)
  /\ (SaleItem.subtotal
        <$> sale_items (step Example.shop_sold (SaveSaleItem Example.zero_line))
            !! 2%nat)
     = Some (Some (Dec.cents 3600))
  /\ (SaleItem.profit
        <$> sale_items (step Example.shop_sold (SaveSaleItem Example.zero_line))
            !! 2%nat)
     = Some (Some (Dec.cents 1600)).
Proof. repeat split; vm_compute; reflexivity. Qed.

(** ** Deletion *)

(** C8. Deleting a Product that a StockReceipt or a SaleItem refers to
    raises ProtectedError and leaves the store as it was. Deleting a Sale
    succeeds: the sale's row goes, the items that go are exactly those of
    that sale, and products, receipts and users stay as they were. *)
Theorem delete_protects_products_cascades_items st pk :
  ((exists k r, stock_receipts st !! k = Some r /\ StockReceipt.product r = pk)
   \/ (exists k i, sale_items st !! k = Some i /\ SaleItem.product i = pk) ->
   Product_delete st pk = Err ProtectedError
   /\ step st (DeleteProduct pk) = st)
  /\ exists st',
      Sale_delete st pk = Ok st'
      /\ step st (DeleteSale pk) = st'
      /\ sales st' = delete pk (sales st)
      /\ (forall k i,
            sale_items st' !! k = Some i
            <-> sale_items st !! k = Some i /\ SaleItem.sale i <> pk)
      /\ products st' = products st
      /\ stock_receipts st' = stock_receipts st
      /\ users st' = users st.
Proof.
  split.
  - intros Href.
    assert (Product_delete st pk = Err ProtectedError) as Hdel.
    { unfold Product_delete.
      destruct Href as [(k & r & Hk & Hr)|(k & i & Hk & Hi)].
      - unfold StockReceipt.product_on_delete.
        by rewrite (collect_PROTECT_refers _ _ _ _ _ Hk Hr).
      - unfold SaleItem.product_on_delete.
        rewrite (collect_PROTECT_refers _ _ _ _ _ Hk Hi).
        unfold StockReceipt.product_on_delete, collect. by case_decide. }
    split; [done|]. cbn -[Product_delete]. by rewrite Hdel.
  - eexists. split; [apply Sale_delete_eq|].
    split; [reflexivity|]. cbn. split; [done|]. split; [|done].
    intros k i. by rewrite map_lookup_filter_Some.
Qed.

Lemma delete_protects_products_cascades_items_witness :
  (exists k r,
      stock_receipts Example.shop_received !! k = Some r
      /\ StockReceipt.product r = 1%nat)
  /\ Product_delete Example.shop_received 1 = Err ProtectedError
  /\ step Example.shop_received (DeleteProduct 1) = Example.shop_received.
Proof.
  assert (exists k r,
             stock_receipts Example.shop_received !! k = Some r
             /\ StockReceipt.product r = 1%nat) as H.
  { exists 1%nat. eexists. split; vm_compute; reflexivity. }
  split; [exact H|].
  apply (proj1 (delete_protects_products_cascades_items
                  Example.shop_received 1)).
  left. exact H.
Defined.

(** ** Validation and totals of a sale *)

Lemma elem_of_if_nil (b : bool) (x y : string) :
  x ∈ (if b then [] else [y]) <-> b = false /\ x = y.
Proof.
  destruct b.
  - rewrite elem_of_nil. split; [done | by intros [? _]].
  - rewrite list_elem_of_singleton. split; [done | by intros [_ ?]].
Qed.

Lemma if_nil_eq_nil (b : bool) (y : string) :
  (if b then [] else [y]) = [] <-> b = true.
Proof. by destruct b. Qed.

Lemma lt_zero d : Dec.lt d (Dec.cents 0) = true <-> Dec.signed d < 0.
Proof.
  unfold Dec.lt, Dec.cmp.
  set (e := Z.min (Dec.dexp d) (Dec.dexp (Dec.cents 0))).
  assert (0 < 10 ^ (Dec.dexp d - e)) by (apply Z.pow_pos_nonneg; lia).
  replace (Dec.scaled (Dec.cents 0) e) with 0 by (unfold Dec.scaled; simpl; lia).
  assert (Dec.scaled d e = Dec.signed d * 10 ^ (Dec.dexp d - e)) as ->
    by (unfold Dec.scaled, Dec.signed; destruct (Dec.dsign d); lia).
  destruct (Z.compare_spec (Dec.signed d * 10 ^ (Dec.dexp d - e)) 0);
    split; intros; try done; nia.
Qed.

Lemma min_value_zero d :
  min_value_decimal (Dec.cents 0) d = true <-> 0 <= Dec.signed d.
Proof.
  unfold min_value_decimal. rewrite negb_true_iff.
  destruct (Dec.lt d (Dec.cents 0)) eqn:Hlt.
  - apply lt_zero in Hlt. split; [done | lia].
  - split; [|done]. intros _.
    destruct (Z.lt_ge_cases (Dec.signed d) 0) as [Hneg|]; [|done].
    apply lt_zero in Hneg. congruence.
Qed.

Lemma decimal_validator_negate m p d :
  decimal_validator m p (Dec.negate d) = decimal_validator m p d.
Proof. reflexivity. Qed.




(** C6, as the specification states it, fails: a Sale whose profit is
    -1.00 passes the whole of [full_clean]. *)
Lemma negative_profit_passes_validation :
  ~ (forall st s, Dec.signed (Sale.profit s) < 0 -> Sale_full_clean st s <> []).
Proof.
  intros H. apply (H Example.shop Example.loss_sale); vm_compute; reflexivity.
Qed.

(** C6, amended. The subtotal, the tax and the total of a Sale are decimals
    with a floor of zero: a Sale that passes validation has none of them
    negative, and a negative one is reported under its field. The profit
    is a decimal without a floor: validation looks at its digits alone,
    which are those of its negation. *)
Theorem Sale_validation_floors st s :
  (Sale_full_clean st s = [] ->
   0 <= Dec.signed (Sale.subtotal s) /\ 0 <= Dec.signed (Sale.tax s)
   /\ 0 <= Dec.signed (Sale.total s))
  /\ (Dec.signed (Sale.subtotal s) < 0 -> "subtotal" ∈ Sale_full_clean st s)
  /\ (Dec.signed (Sale.tax s) < 0 -> "tax" ∈ Sale_full_clean st s)
  /\ (Dec.signed (Sale.total s) < 0 -> "total" ∈ Sale_full_clean st s)
  /\ ("profit" ∈ Sale_full_clean st s
      <-> decimal_validator 10 2 (Sale.profit s) = false)
  /\ decimal_validator 10 2 (Dec.negate (Sale.profit s))
     = decimal_validator 10 2 (Sale.profit s).
Proof.
  assert (forall d, Dec.signed d < 0 ->
            min_value_decimal (Dec.cents 0) d && decimal_validator 10 2 d = false)
    as Hneg.
  { intros d Hd. apply andb_false_iff. left.
    destruct (min_value_decimal (Dec.cents 0) d) eqn:Hm; [|done].
    apply min_value_zero in Hm. lia. }
  unfold Sale_full_clean, Sale.clean_fields.
  split; [|split; [|split; [|split; [|split]]]].
  - intros H. apply app_nil in H as [H _]. apply app_nil in H as [H _].
    apply app_nil in H as [_ H]. apply app_nil in H as [H1 H].
    apply app_nil in H as [H2 H]. apply app_nil in H as [H3 _].
    apply if_nil_eq_nil, andb_true_iff in H1 as [H1 _].
    apply if_nil_eq_nil, andb_true_iff in H2 as [H2 _].
    apply if_nil_eq_nil, andb_true_iff in H3 as [H3 _].
    repeat split; by apply min_value_zero.
  - intros Hd. rewrite !elem_of_app, !elem_of_if_nil, (Hneg _ Hd). tauto.
  - intros Hd. rewrite !elem_of_app, !elem_of_if_nil, (Hneg _ Hd). tauto.
  - intros Hd. rewrite !elem_of_app, !elem_of_if_nil, (Hneg _ Hd). tauto.
  - rewrite !elem_of_app, !elem_of_if_nil.
    intuition (try discriminate; auto).
  - reflexivity.
Qed.

Lemma Sale_validation_floors_witness :
  Dec.signed (Dec.cents (-100)) < 0
  /\ "subtotal"
     ∈ Sale_full_clean Example.shop
         (Sale.mk None "#ORD-TEST0003" 1 (Dec.cents (-100)) (Dec.cents 0)
            (Dec.cents 0) (Dec.cents 0) "CASH" "").
Proof.
  split; [reflexivity|].
  apply (proj1 (proj2 (Sale_validation_floors Example.shop _))).
  reflexivity.
Defined.

(** ** Validation of a sale line *)

(** C10. The validation of a SaleItem looks at the digits of [unit_price]
    and [unit_cost] and at nothing else of them: each is reported exactly
    when its digits do not fit the column, the digits of a decimal are
    those of its negation, and a line whose quantity is at least one and
    whose decimals fit passes, whatever their signs. A quantity below one
    is reported. A Product whose cost or selling price is below 0.01 is
    reported under that field. *)
Theorem SaleItem_prices_have_no_floor st i :
  ("unit_price" ∈ SaleItem_full_clean st i
   <-> decimal_validator 10 2 (SaleItem.unit_price i) = false)
  /\ ("unit_cost" ∈ SaleItem_full_clean st i
      <-> decimal_validator 10 2 (SaleItem.unit_cost i) = false)
  /\ (forall d, decimal_validator 10 2 (Dec.negate d) = decimal_validator 10 2 d)
  /\ (SaleItem.quantity i < 1 -> "quantity" ∈ SaleItem_full_clean st i)
  /\ (1 <= SaleItem.quantity i ->
      fits (SaleItem.unit_price i) -> fits (SaleItem.unit_cost i) ->
      SaleItem.decimal_ok (SaleItem.subtotal i) = true ->
      SaleItem.decimal_ok (SaleItem.profit i) = true ->
      is_Some (sales st !! SaleItem.sale i) ->
      is_Some (products st !! SaleItem.product i) ->
      SaleItem_full_clean st i = [])
  /\ (forall p,
        (Dec.lt (Product.cost_price p) (Dec.cents 1) = true ->
         "cost_price" ∈ Product.clean_fields p)
        /\ (Dec.lt (Product.selling_price p) (Dec.cents 1) = true ->
            "selling_price" ∈ Product.clean_fields p)).
Proof.
  unfold SaleItem_full_clean, SaleItem.clean_fields, Product.clean_fields.
  split; [|split; [|split; [|split; [|split]]]].
  - rewrite !elem_of_app, !elem_of_if_nil.
    intuition (try discriminate; auto).
  - rewrite !elem_of_app, !elem_of_if_nil.
    intuition (try discriminate; auto).
  - reflexivity.
  - intros Hq.
    assert (min_value_int 1 (SaleItem.quantity i) = false) as Hmin
      by (apply negb_false_iff, Z.ltb_lt; lia).
    rewrite !elem_of_app, !elem_of_if_nil, Hmin. tauto.
  - unfold fits. intros Hq -> -> -> -> Hs Hp.
    rewrite !bool_decide_eq_true_2 by done.
    unfold min_value_int.
    by destruct (Z.ltb_spec (SaleItem.quantity i) 1); [lia|].
  - intros p. split; intros Hlt; rewrite !elem_of_app, !elem_of_if_nil;
      unfold min_value_decimal; rewrite Hlt; cbn; tauto.
Qed.

Lemma SaleItem_prices_have_no_floor_witness :
  Dec.signed (SaleItem.unit_price Example.free_line) < 0
  /\ Dec.signed (SaleItem.unit_cost Example.free_line) = 0
  /\ SaleItem_full_clean Example.shop_sold Example.free_line = [].
Proof.
  split; [reflexivity|]. split; [reflexivity|].
  apply (proj1 (proj2 (proj2 (proj2 (proj2
           (SaleItem_prices_have_no_floor Example.shop_sold
              Example.free_line)))))).
  - vm_compute. discriminate.
  - reflexivity.
  - reflexivity.
  - reflexivity.
  - reflexivity.
  - vm_compute. eauto.
  - vm_compute. eauto.
Defined.

(** ** Order ids *)

Lemma substring_0_0 s : String.substring 0 0 s = EmptyString.
Proof. by destruct s. Qed.

Lemma prefix_hex_fixed w k n :
  Py.prefix w (Py.hex_fixed (w + k) n)
  = Py.hex_fixed w (n / 16 ^ N.of_nat k)%N.
Proof.
  unfold Py.prefix. induction w as [|w IH]; [apply substring_0_0|].
  cbn [Nat.add Py.hex_fixed String.substring]. rewrite IH. f_equal.
  rewrite N.Div0.div_div, <- N.pow_add_r.
  by replace (N.of_nat k + N.of_nat w)%N with (N.of_nat (w + k)) by lia.
Qed.

Lemma uuid4_int_high rnd :
  (Py.uuid4_int rnd / 16 ^ N.of_nat 24 = (rnd mod 2 ^ 128) / 2 ^ 96)%N.
Proof.
  unfold Py.uuid4_int.
  change (16 ^ N.of_nat 24)%N with (2 ^ 96)%N.
  rewrite <- !N.shiftr_div_pow2.
  rewrite N.shiftr_lor, N.shiftr_ldiff, N.shiftr_lor, N.shiftr_ldiff.
  change (N.shiftr (N.shiftl 4 76) 96) with 0%N.
  change (N.shiftr (N.shiftl 61440 64) 96) with 0%N.
  change (N.shiftr (N.shiftl 32768 48) 96) with 0%N.
  change (N.shiftr (N.shiftl 49152 48) 96) with 0%N.
  by rewrite !N.lor_0_r, !N.ldiff_0_r.
Qed.









(** ** Decimal arithmetic *)

Module DecFacts.
Import Dec.



Lemma size_nat_gt n : (n < 2 ^ N.of_nat (N.size_nat n))%N.
Proof.
  destruct n as [|p]; [done|]. cbn [N.size_nat].
  induction p as [p IH|p IH|]; cbn [Pos.size_nat];
    rewrite ?Nat2N.inj_succ, ?N.pow_succ_r'; [lia | lia | done].
Qed.

Lemma ndigits_fuel_spec f : forall n,
  (0 < n)%N -> (n < 2 ^ N.of_nat f)%N ->
  1 <= ndigits_fuel f n
  /\ 10 ^ (ndigits_fuel f n - 1) <= Z.of_N n < 10 ^ ndigits_fuel f n.
Proof.
  induction f as [|f IH]; intros n Hpos Hlt.
  - cbn in Hlt. lia.
  - cbn [ndigits_fuel]. destruct (N.ltb_spec n 10) as [Hsmall|Hbig].
    + cbn. lia.
    + rewrite Nat2N.inj_succ, N.pow_succ_r' in Hlt.
      assert (0 < n / 10)%N as Hq
        by (apply N.div_str_pos; lia).
      assert (n / 10 < 2 ^ N.of_nat f)%N as Hq'
        by (apply N.Div0.div_lt_upper_bound; lia).
      destruct (IH _ Hq Hq') as (H1 & Hlo & Hhi).
      set (d := ndigits_fuel f (n / 10)%N) in *.
      replace (1 + d - 1) with (Z.succ (d - 1)) by lia.
      replace (1 + d) with (Z.succ d) by lia.
      rewrite !Z.pow_succ_r by lia.
      rewrite N2Z.inj_div in Hlo, Hhi. change (Z.of_N 10) with 10 in *.
      pose proof (Z.div_mod (Z.of_N n) 10 ltac:(lia)).
      pose proof (Z.mod_pos_bound (Z.of_N n) 10 ltac:(lia)).
      split; [lia|]. split; [lia|].
      assert (Z.of_N n / 10 + 1 <= 10 ^ d) by lia. lia.
Qed.

Lemma ndigits_spec n :
  (0 < n)%N ->
  1 <= ndigits n /\ 10 ^ (ndigits n - 1) <= Z.of_N n < 10 ^ ndigits n.
Proof. intros H. apply ndigits_fuel_spec; [done | apply size_nat_gt]. Qed.

Lemma ndigits_pos n : 1 <= ndigits n.
Proof.
  destruct (N.eq_dec n 0%N) as [->|]; [done|]. apply ndigits_spec. lia.
Qed.

Lemma ndigits_le n m : Z.of_N n < 10 ^ m -> 1 <= m -> ndigits n <= m.
Proof.
  intros Hn Hm. destruct (N.eq_dec n 0%N) as [->|Hne]; [done|].
  destruct (ndigits_spec n ltac:(lia)) as (_ & Hlo & _).
  destruct (Z.le_gt_cases (ndigits n) m) as [|Hgt]; [done|].
  assert (10 ^ m <= 10 ^ (ndigits n - 1)) by (apply Z.pow_le_mono_r; lia).
  lia.
Qed.

Lemma ndigits_lt_pow n : (0 < n)%N -> Z.of_N n < 10 ^ ndigits n.
Proof. intros H. by apply ndigits_spec. Qed.


Lemma pow10_pos k : 0 < 10 ^ k \/ k < 0.
Proof. destruct (Z.le_gt_cases 0 k); [left; by apply Z.pow_pos_nonneg | by right]. Qed.

Lemma of_N_pow10 k : 0 <= k -> Z.of_N (10 ^ Z.to_N k) = 10 ^ k.
Proof. intros Hk. rewrite N2Z.inj_pow, Z2N.id by done. done. Qed.

Lemma round_half_even_spec c k :
  0 <= k ->
  let r := Z.of_N (round_half_even c k) in
  - 10 ^ k <= 2 * (r * 10 ^ k - Z.of_N c) <= 10 ^ k
  /\ (Z.of_N c mod 10 ^ k = 0 -> r * 10 ^ k = Z.of_N c)
  /\ Z.of_N c / 10 ^ k <= r <= Z.of_N c / 10 ^ k + 1.
Proof.
  intros Hk r. subst r. unfold round_half_even.
  rewrite <- (of_N_pow10 k Hk).
  set (p := (10 ^ Z.to_N k)%N).
  assert (0 < p)%N as Hp by (apply N.neq_0_lt_0, N.pow_nonzero; lia).
  rewrite <- N2Z.inj_div, <- N2Z.inj_mod.
  pose proof (N.div_mod c p ltac:(lia)) as Hdm.
  pose proof (N.mod_lt c p ltac:(lia)) as Hlt.
  set (q := (c / p)%N) in *. set (m := (c mod p)%N) in *.
  destruct (N.ltb_spec p (2 * m)); [|destruct (N.eqb_spec (2 * m) p);
    [destruct (N.odd q)|]]; nia.
Qed.

Lemma fix_accurate d :
  dint d <> 0%N ->
  exists k,
    0 <= k
    /\ dexp (fix_ d) = dexp d + k
    /\ dsign (fix_ d) = dsign d
    /\ Z.abs (Z.of_N (dint (fix_ d)) * 10 ^ k - Z.of_N (dint d)) * (2 * 10 ^ 27)
       <= Z.of_N (dint d)
    /\ Z.of_N (dint (fix_ d)) < 10 ^ 28.
Proof.
  intros Hnz. unfold fix_, zero.
  destruct (N.eqb_spec (dint d) 0) as [|_]; [done|].
  destruct (ndigits_spec (dint d) ltac:(lia)) as (Hn1 & Hlo & Hhi).
  set (n := ndigits (dint d)) in *. set (D := Z.of_N (dint d)) in *.
  unfold prec. destruct (Z.leb_spec n 28) as [Hn|Hn].
  - exists 0. rewrite Z.add_0_r, Z.mul_1_r, Z.sub_diag. cbn [Z.abs].
    repeat split; try lia.
    assert (10 ^ n <= 10 ^ 28) by (apply Z.pow_le_mono_r; lia). lia.
  - set (k := n - 28).
    assert (10 ^ (n - 1) = 10 ^ 27 * 10 ^ k) as E1
      by (rewrite <- Z.pow_add_r by lia; f_equal; lia).
    assert (10 ^ n = 10 ^ 28 * 10 ^ k) as E2
      by (rewrite <- Z.pow_add_r by lia; f_equal; lia).
    assert (0 < 10 ^ k) as Hp by (apply Z.pow_pos_nonneg; lia).
    destruct (round_half_even_spec (dint d) k ltac:(lia)) as (Hr & _ & Hq1 & Hq2).
    fold D in Hr, Hq1, Hq2.
    set (c := round_half_even (dint d) k) in *.
    assert (D / 10 ^ k < 10 ^ 28) as Hdiv
      by (apply Z.div_lt_upper_bound; lia).
    assert (Z.abs (Z.of_N c * 10 ^ k - D) * (2 * 10 ^ 27) <= D) as Hacc by nia.
    destruct (Z.ltb_spec 28 (ndigits c)) as [Hc|Hc].
    + assert (10 ^ 28 <= Z.of_N c) as Hbig.
      { destruct (Z.le_gt_cases (10 ^ 28) (Z.of_N c)) as [|Hsmall]; [done|].
        pose proof (ndigits_le c 28 Hsmall ltac:(lia)). lia. }
      assert (Z.of_N c = 10 ^ 28) as Hc28 by lia.
      assert (c = 10 ^ 28)%N as -> by lia.
      exists (k + 1). cbn [dint dexp dsign].
      change (Z.of_N (10 ^ 28 / 10)) with (10 ^ 27).
      rewrite Z.pow_add_r by lia.
      change (Z.of_N (10 ^ 28)) with (10 ^ 28) in Hacc.
      repeat split; try lia.
    + exists k. cbn [dint dexp dsign]. repeat split; try lia.
      destruct (N.eq_dec c 0%N) as [->|Hc0]; [done|].
      destruct (ndigits_spec c ltac:(lia)) as (_ & _ & Hchi).
      assert (10 ^ ndigits c <= 10 ^ 28) by (apply Z.pow_le_mono_r; lia). lia.
Qed.

Lemma fix_exact d m j :
  Z.of_N (dint d) = m * 10 ^ j -> 0 <= j -> 0 <= m < 10 ^ 28 ->
  exists k,
    0 <= k
    /\ dexp (fix_ d) = dexp d + k
    /\ dsign (fix_ d) = dsign d
    /\ Z.of_N (dint (fix_ d)) * 10 ^ k = Z.of_N (dint d)
    /\ Z.of_N (dint (fix_ d)) < 10 ^ 28.
Proof.
  intros HD Hj Hm. unfold fix_, zero.
  destruct (N.eqb_spec (dint d) 0) as [Hz|Hnz].
  { exists 0. rewrite Hz. repeat split; try lia; done. }
  destruct (ndigits_spec (dint d) ltac:(lia)) as (Hn1 & Hlo & Hhi).
  set (n := ndigits (dint d)) in *. set (D := Z.of_N (dint d)) in *.
  unfold prec. destruct (Z.leb_spec n 28) as [Hn|Hn].
  - exists 0. rewrite Z.add_0_r, Z.mul_1_r.
    repeat split; try lia.
    assert (10 ^ n <= 10 ^ 28) by (apply Z.pow_le_mono_r; lia). lia.
  - set (k := n - 28).
    assert (10 ^ (n - 1) = 10 ^ 27 * 10 ^ k) as E1
      by (rewrite <- Z.pow_add_r by lia; f_equal; lia).
    assert (10 ^ n = 10 ^ 28 * 10 ^ k) as E2
      by (rewrite <- Z.pow_add_r by lia; f_equal; lia).
    assert (0 < 10 ^ k) as Hp by (apply Z.pow_pos_nonneg; lia).
    assert (0 < 10 ^ j) as Hpj by (apply Z.pow_pos_nonneg; lia).
    assert (k <= j) as Hkj.
    { destruct (Z.le_gt_cases k j) as [|Hgt]; [done|].
      assert (10 ^ (j + 1) <= 10 ^ k) by (apply Z.pow_le_mono_r; lia).
      rewrite Z.pow_add_r in * by lia. nia. }
    assert (D mod 10 ^ k = 0) as Hmod.
    { rewrite HD. replace j with ((j - k) + k) by lia.
      rewrite Z.pow_add_r, Z.mul_assoc by lia. apply Z.mod_mul. lia. }
    destruct (round_half_even_spec (dint d) k ltac:(lia)) as (_ & Hex & _).
    fold D in Hex. specialize (Hex Hmod).
    set (c := round_half_even (dint d) k) in *.
    assert (Z.of_N c < 10 ^ 28) as Hc by nia.
    pose proof (ndigits_le c 28 Hc ltac:(lia)).
    destruct (Z.ltb_spec 28 (ndigits c)); [lia|].
    exists k. cbn [dint dexp dsign]. repeat split; try lia.
Qed.


Lemma fix_small d : Z.of_N (dint d) < 10 ^ 28 -> fix_ d = d.
Proof.
  intros Hd. unfold fix_. destruct (zero d); [done|].
  pose proof (ndigits_le (dint d) 28 Hd ltac:(lia)).
  unfold prec. by destruct (Z.leb_spec (ndigits (dint d)) 28); [|lia].
Qed.


Lemma Qpow10_add a b : (10 ^ (a + b) == 10 ^ a * 10 ^ b)%Q.
Proof. by apply Qpower_plus. Qed.

Lemma Qpow10_pos a : (0 < 10 ^ a)%Q.
Proof. by apply Qpower_0_lt. Qed.

Lemma Qpow10_inject k : 0 <= k -> (inject_Z (10 ^ k) == 10 ^ k)%Q.
Proof. intros Hk. by rewrite Zpower_Qpower. Qed.

Lemma value_sgn_mag d : (value d == sgn (dsign d) * mag d)%Q.
Proof.
  unfold value, mag, sgn, signed. destruct (dsign d).
  - rewrite inject_Z_opp. ring.
  - ring.
Qed.

Lemma mag_nonneg d : (0 <= mag d)%Q.
Proof.
  unfold mag. apply Qmult_le_0_compat.
  - change 0%Q with (inject_Z 0). rewrite <- Zle_Qle. lia.
  - apply Qlt_le_weak, Qpow10_pos.
Qed.

Lemma mag_pos d : dint d <> 0%N -> (0 < mag d)%Q.
Proof.
  intros Hd. unfold mag. apply Qmult_lt_0_compat; [|apply Qpow10_pos].
  change 0%Q with (inject_Z 0). rewrite <- Zlt_Qlt. lia.
Qed.

Lemma mag_shift c k e s s' :
  0 <= k ->
  (mag (mkDec s c (e + k)) * inject_Z (10 ^ k)
   == mag (mkDec s' c e) * 10 ^ k * inject_Z (10 ^ k))%Q.
Proof.
  intros Hk. unfold mag. cbn [dint dexp]. rewrite Qpow10_add. ring.
Qed.

Lemma mag_fix_exact d m j :
  Z.of_N (dint d) = m * 10 ^ j -> 0 <= j -> 0 <= m < 10 ^ 28 ->
  (mag (fix_ d) == mag d)%Q
  /\ dsign (fix_ d) = dsign d
  /\ Z.of_N (dint (fix_ d)) < 10 ^ 28.
Proof.
  intros HD Hj Hm.
  destruct (fix_exact d m j HD Hj Hm) as (k & Hk & He & Hs & Hc & Hlt).
  split; [|done]. unfold mag. rewrite He, <- Hc, Qpow10_add.
  rewrite inject_Z_mult, Qpow10_inject by done. ring.
Qed.

Lemma Qabs_inject z : Qabs (inject_Z z) = inject_Z (Z.abs z).
Proof. reflexivity. Qed.

Lemma mag_fix_accurate d :
  dint d <> 0%N ->
  (Qabs (mag (fix_ d) - mag d) * inject_Z (2 * 10 ^ 27) <= mag d)%Q
  /\ dsign (fix_ d) = dsign d
  /\ Z.of_N (dint (fix_ d)) < 10 ^ 28.
Proof.
  intros Hnz.
  destruct (fix_accurate d Hnz) as (k & Hk & He & Hs & Hacc & Hlt).
  split; [|done]. unfold mag. rewrite He, Qpow10_add.
  set (c := Z.of_N (dint (fix_ d))) in *. set (D := Z.of_N (dint d)) in *.
  assert (inject_Z c * (10 ^ dexp d * 10 ^ k) - inject_Z D * 10 ^ dexp d
          == inject_Z (c * 10 ^ k - D) * 10 ^ dexp d)%Q as ->.
  { unfold Z.sub. rewrite inject_Z_plus, inject_Z_opp, inject_Z_mult.
    rewrite Qpow10_inject by done. ring. }
  rewrite Qabs_Qmult, Qabs_inject.
  rewrite (Qabs_pos (10 ^ dexp d)) by apply Qlt_le_weak, Qpow10_pos.
  assert (inject_Z (Z.abs (c * 10 ^ k - D)) * 10 ^ dexp d * inject_Z (2 * 10 ^ 27)
          == inject_Z (Z.abs (c * 10 ^ k - D) * (2 * 10 ^ 27)) * 10 ^ dexp d)%Q
    as -> by (rewrite !inject_Z_mult; ring).
  apply Qmult_le_compat_r; [|apply Qlt_le_weak, Qpow10_pos].
  by rewrite <- Zle_Qle.
Qed.


Lemma strip_zeros_spec fuel : forall coeff exp ideal,
  exists j,
    0 <= j
    /\ (strip_zeros fuel coeff exp ideal).2 = exp + j
    /\ Z.of_N (strip_zeros fuel coeff exp ideal).1 * 10 ^ j = Z.of_N coeff.
Proof.
  induction fuel as [|fuel IH]; intros coeff exp ideal; cbn [strip_zeros].
  - exists 0. cbn. lia.
  - destruct ((exp <? ideal) && (coeff mod 10 =? 0)%N) eqn:Hc.
    + apply andb_true_iff in Hc as [_ Hmod]. apply N.eqb_eq in Hmod.
      destruct (IH (coeff / 10)%N (exp + 1) ideal) as (j & Hj & He & Hv).
      exists (j + 1). rewrite He, Z.pow_add_r by lia.
      pose proof (N.div_mod coeff 10 ltac:(lia)).
      split; [lia|]. split; [lia|]. rewrite Z.mul_assoc, Hv. lia.
    + exists 0. cbn. lia.
Qed.

(** The integer core of the accuracy of a quotient. *)
Lemma quotient_core c0 c1 k j num den :
  0 < den -> 10 ^ 28 * den <= num -> 0 <= k -> 0 <= j ->
  Z.abs (c1 * 10 ^ k - c0) * (2 * 10 ^ 27) <= c0 ->
  (j = 0 /\ Z.abs (c0 * den - num) <= den \/ c0 * 10 ^ j * den = num) ->
  Z.abs (c1 * 10 ^ (j + k) * den - num) * 10 ^ 27 <= num.
Proof.
  intros Hden Hnum Hk Hj Hfix [[-> Hrem]|Hexact].
  - rewrite Z.add_0_l.
    assert (Z.abs (c1 * 10 ^ k - c0) * (2 * 10 ^ 27) * den <= c0 * den) as H1
      by (apply Z.mul_le_mono_nonneg_r; lia).
    assert (Z.abs (c1 * 10 ^ k * den - num)
            <= Z.abs (c1 * 10 ^ k - c0) * den + Z.abs (c0 * den - num)) as H2.
    { replace (c1 * 10 ^ k * den - num)
        with ((c1 * 10 ^ k - c0) * den + (c0 * den - num)) by ring.
      etrans; [apply Z.abs_triangle|]. rewrite Z.abs_mul, (Z.abs_eq den); lia. }
    set (E1 := Z.abs (c1 * 10 ^ k - c0)) in *.
    set (E2 := Z.abs (c0 * den - num)) in *.
    set (T := Z.abs (c1 * 10 ^ k * den - num)) in *.
    assert (c0 * den <= num + den) by lia.
    change (10 ^ 28) with 10000000000000000000000000000 in *.
    change (10 ^ 27) with 1000000000000000000000000000 in *.
    nia.
  - assert (0 < 10 ^ j) by (apply Z.pow_pos_nonneg; lia).
    rewrite Z.pow_add_r by lia.
    replace (c1 * (10 ^ j * 10 ^ k) * den - num)
      with ((c1 * 10 ^ k - c0) * (10 ^ j * den)) by (rewrite <- Hexact; ring).
    rewrite Z.abs_mul, (Z.abs_eq (10 ^ j * den)) by nia.
    assert (Z.abs (c1 * 10 ^ k - c0) * (2 * 10 ^ 27) * (10 ^ j * den)
            <= c0 * (10 ^ j * den)) as H1
      by (apply Z.mul_le_mono_nonneg_r; nia).
    change (10 ^ 27) with 1000000000000000000000000000 in *.
    nia.
Qed.

(** The same in the rationals. *)
Lemma quotient_core_Q c1 t exp num den :
  0 < den -> 0 <= t ->
  Z.abs (c1 * 10 ^ t * den - num) * 10 ^ 27 <= num ->
  (Qabs (inject_Z c1 * 10 ^ (exp + t) - inject_Z num / inject_Z den * 10 ^ exp)
   * inject_Z (10 ^ 27)
   <= inject_Z num / inject_Z den * 10 ^ exp)%Q.
Proof.
  intros Hden Ht Hacc.
  assert (~ inject_Z den == 0)%Q as Hden0.
  { change 0%Q with (inject_Z 0). rewrite inject_Z_injective. lia. }
  assert (0 < 10 ^ exp / inject_Z den)%Q as Hpos.
  { apply Qlt_shift_div_l.
    - change 0%Q with (inject_Z 0). rewrite <- Zlt_Qlt. lia.
    - rewrite Qmult_0_l. apply Qpow10_pos. }
  assert (inject_Z c1 * 10 ^ (exp + t) - inject_Z num / inject_Z den * 10 ^ exp
          == (10 ^ exp / inject_Z den) * inject_Z (c1 * 10 ^ t * den - num))%Q as ->.
  { unfold Z.sub. rewrite inject_Z_plus, inject_Z_opp, !inject_Z_mult.
    rewrite Qpow10_inject, Qpow10_add by done. field. done. }
  assert (inject_Z num / inject_Z den * 10 ^ exp
          == (10 ^ exp / inject_Z den) * inject_Z num)%Q as -> by (field; done).
  rewrite Qabs_Qmult, Qabs_inject, (Qabs_pos _ (Qlt_le_weak _ _ Hpos)).
  rewrite <- Qmult_assoc, <- inject_Z_mult.
  apply Qmult_le_l; [done|]. by rewrite <- Zle_Qle.
Qed.



Lemma div_operands a b :
  dint a <> 0%N -> dint b <> 0%N ->
  let shift := div_shift a b in
  let num := if 0 <=? shift then (dint a * 10 ^ Z.to_N shift)%N else dint a in
  let den := if 0 <=? shift then dint b else (dint b * 10 ^ Z.to_N (- shift))%N in
  0 < Z.of_N den
  /\ 10 ^ 28 * Z.of_N den <= Z.of_N num
  /\ (inject_Z (Z.of_N num) / inject_Z (Z.of_N den)
      == inject_Z (Z.of_N (dint a)) / inject_Z (Z.of_N (dint b)) * 10 ^ shift)%Q.
Proof.
  intros Ha Hb shift num den. subst num den.
  destruct (ndigits_spec (dint a) ltac:(lia)) as (Hla & Halo & Hahi).
  destruct (ndigits_spec (dint b) ltac:(lia)) as (Hlb & Hblo & Hbhi).
  unfold div_shift, prec in shift.
  set (la := ndigits (dint a)) in *. set (lb := ndigits (dint b)) in *.
  set (A := Z.of_N (dint a)) in *. set (B := Z.of_N (dint b)) in *.
  assert (~ inject_Z B == 0)%Q as HB0.
  { change 0%Q with (inject_Z 0). rewrite inject_Z_injective. lia. }
  destruct (Z.leb_spec 0 shift) as [Hs|Hs].
  - rewrite N2Z.inj_mul, of_N_pow10 by done. fold A B.
    assert (0 < 10 ^ shift) by (apply Z.pow_pos_nonneg; lia).
    split; [lia|]. split.
    + assert (10 ^ 28 * 10 ^ lb = 10 ^ (la - 1) * 10 ^ shift) as E.
      { rewrite <- !Z.pow_add_r by lia. f_equal. lia. }
      assert (10 ^ 28 * B <= 10 ^ 28 * 10 ^ lb) by lia.
      assert (10 ^ (la - 1) * 10 ^ shift <= A * 10 ^ shift)
        by (apply Z.mul_le_mono_nonneg_r; lia).
      lia.
    + rewrite inject_Z_mult, Qpow10_inject by done. field. done.
  - rewrite N2Z.inj_mul, of_N_pow10 by lia. fold A B.
    assert (0 < 10 ^ (- shift)) by (apply Z.pow_pos_nonneg; lia).
    split; [nia|]. split.
    + assert (10 ^ 28 * 10 ^ lb * 10 ^ (- shift) = 10 ^ (la - 1)) as E.
      { rewrite <- !Z.pow_add_r by lia. f_equal. lia. }
      assert (10 ^ 28 * B * 10 ^ (- shift) <= 10 ^ 28 * 10 ^ lb * 10 ^ (- shift))
        by (apply Z.mul_le_mono_nonneg_r; lia).
      lia.
    + rewrite inject_Z_mult, Qpow10_inject by lia.
      assert (10 ^ shift == / 10 ^ (- shift))%Q as ->.
      { rewrite <- Qpower_opp. by rewrite Z.opp_involutive. }
      pose proof (Qpow10_pos (- shift)) as Hp.
      field. split; [|done]. intros H0. rewrite H0 in Hp. by apply Qlt_irrefl in Hp.
Qed.

Lemma div_prefix a b :
  dint a <> 0%N -> dint b <> 0%N ->
  exists c0 j num den,
    div a b
    = Some (fix_ (mkDec (xorb (dsign a) (dsign b)) c0
                    (dexp a - dexp b - div_shift a b + j)))
    /\ 0 <= j /\ c0 <> 0%N /\ 0 < den /\ 10 ^ 28 * den <= num
    /\ (j = 0 /\ Z.abs (Z.of_N c0 * den - num) <= den
        \/ Z.of_N c0 * 10 ^ j * den = num)
    /\ (inject_Z num / inject_Z den
        == inject_Z (Z.of_N (dint a)) / inject_Z (Z.of_N (dint b))
           * 10 ^ div_shift a b)%Q.
Proof.
  intros Ha Hb.
  destruct (div_operands a b Ha Hb) as (Hden & Hnum & HQ).
  unfold div, zero.
  destruct (N.eqb_spec (dint b) 0) as [|_]; [done|].
  destruct (N.eqb_spec (dint a) 0) as [|_]; [done|].
  fold (div_shift a b) in *.
  set (shift := div_shift a b) in *.
  set (num := if 0 <=? shift then (dint a * 10 ^ Z.to_N shift)%N else dint a) in *.
  set (den := if 0 <=? shift then dint b else (dint b * 10 ^ Z.to_N (- shift))%N) in *.
  pose proof (N.div_mod num den ltac:(lia)) as Hdm.
  pose proof (N.mod_lt num den ltac:(lia)) as Hlt.
  set (coeff := (num / den)%N) in *. set (rem := (num mod den)%N) in *.
  assert (10 ^ 28 <= Z.of_N coeff) as Hcoeff.
  { change (10 ^ 28) with 10000000000000000000000000000 in *. nia. }
  destruct (N.eqb_spec rem 0) as [Hrem|Hrem]; cbn [negb].
  - destruct (strip_zeros_spec (Z.to_nat (dexp a - dexp b - (dexp a - dexp b - shift)))
                coeff (dexp a - dexp b - shift) (dexp a - dexp b))
      as (j & Hj & He & Hv).
    destruct (strip_zeros _ _ _ _) as [c e]. cbn [fst snd] in He, Hv. subst e.
    exists c, j, (Z.of_N num), (Z.of_N den).
    split; [done|]. split; [done|].
    assert (0 < 10 ^ j) by (apply Z.pow_pos_nonneg; lia).
    split; [nia|]. split; [done|]. split; [done|]. split; [|done].
    right. rewrite Hv. nia.
  - exists (if (coeff mod 5 =? 0)%N then (coeff + 1)%N else coeff), 0,
      (Z.of_N num), (Z.of_N den).
    rewrite Z.add_0_r.
    split; [done|]. split; [done|].
    split; [destruct (coeff mod 5 =? 0)%N; lia|].
    split; [done|]. split; [done|]. split; [|done].
    left. split; [done|]. destruct (coeff mod 5 =? 0)%N; nia.
Qed.

Lemma div_accurate a b :
  dint a <> 0%N -> dint b <> 0%N ->
  exists q,
    div a b = Some q
    /\ dsign q = xorb (dsign a) (dsign b)
    /\ Z.of_N (dint q) < 10 ^ 28
    /\ (Qabs (mag q - mag a / mag b) * inject_Z (10 ^ 27) <= mag a / mag b)%Q.
Proof.
  intros Ha Hb.
  destruct (div_prefix a b Ha Hb)
    as (c0 & j & num & den & Hdiv & Hj & Hc0 & Hden & Hnum & Hrem & HQ).
  set (shift := div_shift a b) in *.
  set (exp := dexp a - dexp b - shift) in *.
  set (d0 := mkDec (xorb (dsign a) (dsign b)) c0 (exp + j)) in *.
  destruct (fix_accurate d0 Hc0) as (k & Hk & He & Hs & Hacc & Hlt).
  exists (fix_ d0). split; [done|]. split; [done|]. split; [done|].
  cbn [dint dexp dsign d0] in He, Hacc.
  pose proof (quotient_core (Z.of_N c0) (Z.of_N (dint (fix_ d0))) k j num den
                Hden Hnum Hk Hj Hacc Hrem) as Hcore.
  pose proof (quotient_core_Q _ (j + k) exp num den Hden ltac:(lia) Hcore) as HcQ.
  assert (mag a / mag b == inject_Z num / inject_Z den * 10 ^ exp)%Q as ->.
  { rewrite HQ. unfold mag.
    replace (dexp a) with (dexp b + (shift + exp)) by (unfold exp; lia).
    rewrite !Qpow10_add.
    assert (~ inject_Z (Z.of_N (dint b)) == 0)%Q.
    { change 0%Q with (inject_Z 0). rewrite inject_Z_injective. lia. }
    pose proof (Qpow10_pos (dexp b)) as Hp.
    field. split; [done|]. intros H0. rewrite H0 in Hp. by apply Qlt_irrefl in Hp. }
  unfold mag at 1. rewrite He.
  by replace (exp + j + k) with (exp + (j + k)) by lia.
Qed.



Lemma fits_bounded d : fits d -> bounded d.
Proof.
  unfold fits, decimal_validator, bounded. intros H.
  pose proof (ndigits_pos (dint d)) as Hlen.
  assert (dint d <> 0%N -> Z.of_N (dint d) < 10 ^ ndigits (dint d)) as Hlt
    by (intros; apply ndigits_lt_pow; lia).
  assert (forall n, n <= 10 -> 10 ^ n <= 10 ^ 10) as Hmono
    by (intros; apply Z.pow_le_mono_r; lia).
  destruct (Z.leb_spec 0 (dexp d)) as [He|He].
  - destruct (N.eqb_spec (dint d) 0) as [Hz|Hz];
      rewrite !andb_true_iff, !negb_true_iff, !Z.ltb_ge in H.
    + split; [lia|]. done.
    + split; [lia|]. intros _. specialize (Hlt Hz).
      specialize (Hmono (ndigits (dint d)) ltac:(lia)). lia.
  - destruct (Z.ltb_spec (ndigits (dint d)) (Z.abs (dexp d)));
      rewrite !andb_true_iff, !negb_true_iff, !Z.ltb_ge in H.
    + split; [lia|]. intros Hz. specialize (Hlt Hz).
      specialize (Hmono (ndigits (dint d)) ltac:(lia)). lia.
    + split; [lia|]. intros Hz. specialize (Hlt Hz).
      specialize (Hmono (ndigits (dint d)) ltac:(lia)). lia.
Qed.

Lemma bounded_negate d : bounded d -> bounded (negate d).
Proof. done. Qed.

Lemma signed_negate d : signed (negate d) = - signed d.
Proof. unfold signed, negate. cbn. destruct (dsign d); cbn; lia. Qed.

Lemma signed_mk s c e :
  signed (mkDec s c e) = (if s then -1 else 1) * Z.of_N c.
Proof. unfold signed. cbn. destruct s; lia. Qed.

(** The last step of [add], on operands at one exponent. *)
Lemma add_aligned op1 op2 exp :
  dexp op1 = exp ->
  Z.of_N (dint op1) < 10 ^ 27 -> Z.of_N (dint op2) < 10 ^ 27 ->
  let r :=
    if xorb (dsign op1) (dsign op2) then
      if (dint op1 =? dint op2)%N then fix_ (mkDec false 0 exp)
      else if (dint op1 <? dint op2)%N
      then fix_ (mkDec (dsign op2) (dint op2 - dint op1)%N (dexp op1))
      else fix_ (mkDec (dsign op1) (dint op1 - dint op2)%N (dexp op1))
    else fix_ (mkDec (dsign op1) (dint op1 + dint op2)%N (dexp op1)) in
  dexp r = exp /\ signed r = signed op1 + signed op2.
Proof.
  intros He H1 H2 r. subst r.
  change (10 ^ 27) with 1000000000000000000000000000 in *.
  assert (forall s c e, Z.of_N c < 10 ^ 28 -> fix_ (mkDec s c e) = mkDec s c e)
    as Hfix by (intros; by apply fix_small).
  change (10 ^ 28) with 10000000000000000000000000000 in *.
  unfold signed at 2 3.
  destruct (dsign op1), (dsign op2); cbn [xorb];
    repeat match goal with
      | |- context [(?x =? ?y)%N] => destruct (N.eqb_spec x y)
      | |- context [(?x <? ?y)%N] => destruct (N.ltb_spec x y)
      end;
    rewrite Hfix by lia; rewrite signed_mk; cbn [dexp]; lia.
Qed.

Lemma pow10_le_11 k : 0 <= k <= 11 -> 0 < 10 ^ k <= 10 ^ 11.
Proof.
  intros Hk. split; [apply Z.pow_pos_nonneg; lia | apply Z.pow_le_mono_r; lia].
Qed.

Lemma add_exact a b :
  bounded a -> bounded b ->
  let m := Z.min (dexp a) (dexp b) in
  dexp (add a b) = m
  /\ signed (add a b)
     = signed a * 10 ^ (dexp a - m) + signed b * 10 ^ (dexp b - m).
Proof.
  intros [Hea Ha] [Heb Hb] m. unfold add, zero. fold m.
  assert (forall s c e, Z.of_N c < 10 ^ 28 -> fix_ (mkDec s c e) = mkDec s c e)
    as Hfix by (intros; by apply fix_small).
  change (10 ^ 28) with 10000000000000000000000000000 in *.
  change (10 ^ 10) with 10000000000 in *.
  destruct (N.eqb_spec (dint a) 0) as [Hza|Hza];
    destruct (N.eqb_spec (dint b) 0) as [Hzb|Hzb]; cbn [andb].
  - rewrite Hfix by done. unfold signed. rewrite Hza, Hzb. cbn.
    split; [done|]. by destruct (dsign a), (dsign b).
  - destruct (Hb Hzb) as [HB Heb9].
    assert (Z.max m (dexp b - prec - 1) = m) as -> by (unfold prec; lia).
    unfold rescale, zero. destruct (N.eqb_spec (dint b) 0); [done|].
    destruct (Z.leb_spec m (dexp b)); [|lia].
    pose proof (pow10_le_11 (dexp b - m) ltac:(lia)) as Hp.
    change (10 ^ 11) with 100000000000 in Hp.
    rewrite Hfix by (rewrite N2Z.inj_mul, of_N_pow10 by lia; nia).
    split; [done|]. unfold signed at 2. rewrite Hza.
    rewrite signed_mk, N2Z.inj_mul, of_N_pow10 by lia.
    unfold signed. destruct (dsign a), (dsign b); lia.
  - destruct (Ha Hza) as [HA Hea9].
    assert (Z.max m (dexp a - prec - 1) = m) as -> by (unfold prec; lia).
    unfold rescale, zero. destruct (N.eqb_spec (dint a) 0); [done|].
    destruct (Z.leb_spec m (dexp a)); [|lia].
    pose proof (pow10_le_11 (dexp a - m) ltac:(lia)) as Hp.
    change (10 ^ 11) with 100000000000 in Hp.
    rewrite Hfix by (rewrite N2Z.inj_mul, of_N_pow10 by lia; nia).
    split; [done|]. unfold signed at 3. rewrite Hzb.
    rewrite signed_mk, N2Z.inj_mul, of_N_pow10 by lia.
    unfold signed. destruct (dsign a), (dsign b); lia.
  - destruct (Ha Hza) as [HA Hea9]. destruct (Hb Hzb) as [HB Heb9].
    pose proof (ndigits_le (dint a) 10 HA ltac:(lia)) as Hla.
    pose proof (ndigits_le (dint b) 10 HB ltac:(lia)) as Hlb.
    pose proof (ndigits_pos (dint a)) as Hla1.
    pose proof (ndigits_pos (dint b)) as Hlb1.
    unfold normalize, prec.
    destruct (Z.ltb_spec (dexp a) (dexp b)) as [Hlt|Hge].
    + destruct (Z.ltb_spec (ndigits (dint a) + dexp a - 1)
                  (dexp b + Z.min (-1) (ndigits (dint b) - 28 - 2))); [lia|].
      pose proof (pow10_le_11 (dexp b - dexp a) ltac:(lia)) as Hp.
      change (10 ^ 11) with 100000000000 in Hp.
      set (op2 := mkDec (dsign b) (dint b * 10 ^ Z.to_N (dexp b - dexp a))%N (dexp a)).
      assert (Z.of_N (dint op2) = Z.of_N (dint b) * 10 ^ (dexp b - dexp a)) as Hop2
        by (cbn; rewrite N2Z.inj_mul, of_N_pow10 by lia; done).
      destruct (add_aligned a op2 m) as [He Hs].
      * lia.
      * change (10 ^ 27) with 1000000000000000000000000000. lia.
      * change (10 ^ 27) with 1000000000000000000000000000. nia.
      * split; [exact He|]. rewrite Hs.
        replace (dexp a - m) with 0 by lia. replace (dexp b - m) with (dexp b - dexp a) by lia.
        unfold signed. rewrite Hop2. cbn [dsign op2].
        destruct (dsign a), (dsign b); lia.
    + destruct (Z.ltb_spec (ndigits (dint b) + dexp b - 1)
                  (dexp a + Z.min (-1) (ndigits (dint a) - 28 - 2))); [lia|].
      pose proof (pow10_le_11 (dexp a - dexp b) ltac:(lia)) as Hp.
      change (10 ^ 11) with 100000000000 in Hp.
      set (op1 := mkDec (dsign a) (dint a * 10 ^ Z.to_N (dexp a - dexp b))%N (dexp b)).
      assert (Z.of_N (dint op1) = Z.of_N (dint a) * 10 ^ (dexp a - dexp b)) as Hop1
        by (cbn; rewrite N2Z.inj_mul, of_N_pow10 by lia; done).
      destruct (add_aligned op1 b m) as [He Hs].
      * cbn. lia.
      * change (10 ^ 27) with 1000000000000000000000000000. nia.
      * change (10 ^ 27) with 1000000000000000000000000000. lia.
      * split; [exact He|]. rewrite Hs.
        replace (dexp b - m) with 0 by lia. replace (dexp a - m) with (dexp a - dexp b) by lia.
        unfold signed. rewrite Hop1. cbn [dsign op1].
        destruct (dsign a), (dsign b); lia.
Qed.

Lemma sub_exact a b :
  fits a -> fits b -> (value (sub a b) == value a - value b)%Q.
Proof.
  intros Ha Hb.
  destruct (add_exact a (negate b) (fits_bounded _ Ha)
              (bounded_negate _ (fits_bounded _ Hb))) as [He Hs].
  rewrite signed_negate in Hs. cbn [negate dexp] in He, Hs.
  set (m := Z.min (dexp a) (dexp b)) in *.
  unfold sub, value. rewrite He, Hs.
  assert (10 ^ dexp a == 10 ^ m * inject_Z (10 ^ (dexp a - m)))%Q as ->.
  { rewrite Qpow10_inject, <- Qpow10_add by lia.
    by replace (m + (dexp a - m)) with (dexp a) by lia. }
  assert (10 ^ dexp b == 10 ^ m * inject_Z (10 ^ (dexp b - m)))%Q as ->.
  { rewrite Qpow10_inject, <- Qpow10_add by lia.
    by replace (m + (dexp b - m)) with (dexp b) by lia. }
  rewrite inject_Z_plus, !inject_Z_mult, inject_Z_opp. ring.
Qed.


Lemma mul_100 q :
  Z.of_N (dint q) < 10 ^ 28 ->
  (value (mul q (of_int 100)) == 100 * value q)%Q.
Proof.
  intros Hq.
  change (mul q (of_int 100))
    with (fix_ (mkDec (xorb (dsign q) false) (dint q * 100)%N (dexp q + 0))).
  rewrite xorb_false_r, Z.add_0_r.
  set (d := mkDec (dsign q) (dint q * 100)%N (dexp q)).
  destruct (mag_fix_exact d (Z.of_N (dint q)) 2) as (Hm & Hs & _).
  - cbn. lia.
  - lia.
  - lia.
  - rewrite !value_sgn_mag, Hm, Hs. unfold mag, d. cbn [dsign dint dexp].
    rewrite N2Z.inj_mul, inject_Z_mult. change (inject_Z (Z.of_N 100)) with 100%Q.
    ring.
Qed.

Lemma gt_zero d : gt d (of_int 0) = true <-> 0 < signed d.
Proof.
  unfold gt, cmp.
  set (e := Z.min (dexp d) (dexp (of_int 0))).
  assert (0 < 10 ^ (dexp d - e)) by (apply Z.pow_pos_nonneg; lia).
  replace (scaled (of_int 0) e) with 0 by (unfold scaled; simpl; lia).
  assert (scaled d e = signed d * 10 ^ (dexp d - e)) as ->
    by (unfold scaled, signed; destruct (dsign d); lia).
  destruct (Z.compare_spec (signed d * 10 ^ (dexp d - e)) 0);
    split; intros; try done; nia.
Qed.

Lemma sgn_sq b : (sgn b * sgn b == 1)%Q.
Proof. by destruct b. Qed.

Lemma sgn_xorb x y : (sgn (xorb x y) == sgn x * sgn y)%Q.
Proof. by destruct x, y. Qed.

Lemma Qabs_sgn b x : (Qabs (sgn b * x) == Qabs x)%Q.
Proof.
  rewrite Qabs_Qmult.
  destruct b; unfold sgn;
    [change (Qabs (-1)) with 1%Q | change (Qabs 1) with 1%Q]; ring.
Qed.

Lemma value_quotient a b :
  dint b <> 0%N ->
  (value a / value b == sgn (dsign a) * sgn (dsign b) * (mag a / mag b))%Q.
Proof.
  intros Hb. pose proof (mag_pos b Hb) as Hp.
  rewrite !value_sgn_mag.
  assert (~ mag b == 0)%Q as Hm by (intros H0; rewrite H0 in Hp; by apply Qlt_irrefl in Hp).
  destruct (dsign a), (dsign b); unfold sgn; field; done.
Qed.

Lemma value_zero d : dint d = 0%N -> (value d == 0)%Q.
Proof.
  intros Hd. unfold value, signed. rewrite Hd.
  destruct (dsign d); change (inject_Z _) with 0%Q; apply Qmult_0_l.
Qed.

(** The quotient of two decimals is the quotient of their values, to 28
    significant digits. *)
Lemma div_value a b :
  dint b <> 0%N ->
  exists q,
    div a b = Some q
    /\ Z.of_N (dint q) < 10 ^ 28
    /\ (Qabs (value q - value a / value b) * inject_Z (10 ^ 27)
        <= Qabs (value a / value b))%Q.
Proof.
  intros Hb. destruct (N.eq_dec (dint a) 0%N) as [Ha|Ha].
  - unfold div, zero. rewrite Ha. destruct (N.eqb_spec (dint b) 0); [done|].
    cbn [N.eqb]. eexists. split; [reflexivity|].
    rewrite fix_small by (cbn; lia). cbn [dint]. split; [lia|].
    rewrite (value_zero a Ha), (value_zero (mkDec _ 0 _) eq_refl).
    unfold Qdiv. rewrite Qmult_0_l. done.
  - destruct (div_accurate a b Ha Hb) as (q & Hq & Hs & Hlt & Hacc).
    exists q. split; [done|]. split; [done|].
    rewrite value_quotient by done.
    rewrite (value_sgn_mag q), Hs, sgn_xorb.
    assert (sgn (dsign a) * sgn (dsign b) * mag q
            - sgn (dsign a) * sgn (dsign b) * (mag a / mag b)
            == sgn (dsign a) * (sgn (dsign b) * (mag q - mag a / mag b)))%Q as ->
      by ring.
    rewrite <- Qmult_assoc, !Qabs_sgn.
    rewrite (Qabs_pos (mag a / mag b)); [done|].
    apply Qle_shift_div_l; [by apply mag_pos|].
    rewrite Qmult_0_l. apply mag_nonneg.
Qed.

End DecFacts.

(** ** Derived values of a product *)

(** C9. [needs_restock] is true exactly when the stock is at most the
    threshold. For a selling price and a cost price that fit their columns,
    as those of every validated product do: [profit_per_unit] is
    the decimal difference of the selling price and the cost price, which
    is their difference exactly; and when the cost price is positive,
    [profit_percentage] is the decimal quotient of the profit per unit by
    the cost price, times 100, where the product by 100 is exact and the
    quotient is the one of the context, correct to 28 significant digits.
    When the cost price is not positive, [profit_percentage] is 0.00. *)
Theorem Product_derived_values p :
  (Product.needs_restock p = true
   <-> Product.stock_quantity p <= Product.restock_threshold p)
  /\ (fits (Product.selling_price p) -> fits (Product.cost_price p) ->
      Product.profit_per_unit p
      = Dec.sub (Product.selling_price p) (Product.cost_price p)
      /\ (Dec.value (Product.profit_per_unit p)
          == Dec.value (Product.selling_price p)
             - Dec.value (Product.cost_price p))%Q
      /\ (0 < Dec.signed (Product.cost_price p) ->
          exists q,
            Dec.div (Product.profit_per_unit p) (Product.cost_price p) = Some q
            /\ Product.profit_percentage p = Some (Dec.mul q (Dec.of_int 100))
            /\ (Dec.value (Dec.mul q (Dec.of_int 100)) == 100 * Dec.value q)%Q
            /\ (Qabs (Dec.value (Dec.mul q (Dec.of_int 100))
                      - Dec.value (Product.profit_per_unit p)
                        / Dec.value (Product.cost_price p) * 100)
                * inject_Z (10 ^ 27)
                <= Qabs (Dec.value (Product.profit_per_unit p)
                         / Dec.value (Product.cost_price p) * 100))%Q))
  /\ (Dec.signed (Product.cost_price p) <= 0 ->
      Product.profit_percentage p = Some (Dec.cents 0)).
Proof.
  split; [apply Z.leb_le|]. split.
  - intros Hfs Hfc. split; [reflexivity|].
    split; [by apply DecFacts.sub_exact|].
    intros Hpos.
    assert (Dec.dint (Product.cost_price p) <> 0%N) as Hnz.
    { unfold Dec.signed in Hpos. destruct (Dec.dsign _); lia. }
    destruct (DecFacts.div_value (Product.profit_per_unit p)
                (Product.cost_price p) Hnz) as (q & Hq & Hlt & Hacc).
    exists q. split; [done|].
    pose proof (DecFacts.mul_100 q Hlt) as Hmul.
    split.
    { unfold Product.profit_percentage.
      rewrite (proj2 (DecFacts.gt_zero _) Hpos), Hq. done. }
    split; [done|]. rewrite Hmul.
    set (x := (Dec.value (Product.profit_per_unit p)
               / Dec.value (Product.cost_price p))%Q) in *.
    assert (100 * Dec.value q - x * 100 == 100 * (Dec.value q - x))%Q as ->
      by ring.
    assert (x * 100 == 100 * x)%Q as -> by ring.
    rewrite !Qabs_Qmult. change (Qabs 100) with 100%Q.
    rewrite <- Qmult_assoc. apply Qmult_le_l; [done|exact Hacc].
  - intros Hneg. unfold Product.profit_percentage.
    destruct (Dec.gt (Product.cost_price p) (Dec.of_int 0)) eqn:Hgt; [|done].
    apply DecFacts.gt_zero in Hgt. lia.
Qed.

Lemma Product_derived_values_witness :
  fits (Product.selling_price Example.lipstick)
  /\ fits (Product.cost_price Example.lipstick)
  /\ 0 < Dec.signed (Product.cost_price Example.lipstick)
  /\ (Dec.value (Product.profit_per_unit Example.lipstick)
      == Dec.value (Dec.cents 1800) - Dec.value (Dec.cents 1000))%Q
  /\ Product.profit_percentage Example.lipstick
     = Some (Dec.mkDec false 800 (-1)).
Proof.
  assert (fits (Product.selling_price Example.lipstick)) as H1 by reflexivity.
  assert (fits (Product.cost_price Example.lipstick)) as H2 by reflexivity.
  assert (0 < Dec.signed (Product.cost_price Example.lipstick)) as H3
    by reflexivity.
  destruct (Product_derived_values Example.lipstick) as (_ & Hfit & _).
  destruct (Hfit H1 H2) as (_ & Hsub & Hdiv).
  split; [exact H1|]. split; [exact H2|]. split; [exact H3|].
  split; [exact Hsub|].
  destruct (Hdiv H3) as (q & Hq & -> & _).
  vm_compute in Hq. injection Hq as <-. reflexivity.
Defined.

(** ** Decimals that fit a column *)

Module ColumnFacts.
Import Dec DecFacts.

(** A decimal that fits is at least at exponent -2 and, in hundredths, its
    coefficient is below ten digits. *)
Lemma fits_hundredths d :
  fits d ->
  -2 <= dexp d
  /\ (dint d <> 0%N -> Z.of_N (dint d) * 10 ^ (dexp d + 2) < 10 ^ 10).
Proof.
  unfold fits, decimal_validator. intros H.
  pose proof (ndigits_pos (dint d)) as Hlen.
  assert (dint d <> 0%N -> Z.of_N (dint d) < 10 ^ ndigits (dint d)) as Hlt
    by (intros; apply ndigits_lt_pow; lia).
  set (n := ndigits (dint d)) in *.
  assert (forall e, 0 <= e + 2 -> n + e <= 8 -> dint d <> 0%N ->
            Z.of_N (dint d) * 10 ^ (e + 2) < 10 ^ 10) as Hb.
  { intros e He Hn Hz. specialize (Hlt Hz).
    assert (0 < 10 ^ (e + 2)) by (apply Z.pow_pos_nonneg; lia).
    assert (10 ^ n * 10 ^ (e + 2) <= 10 ^ 10).
    { rewrite <- Z.pow_add_r by lia. apply Z.pow_le_mono_r; lia. }
    nia. }
  destruct (Z.leb_spec 0 (dexp d)) as [He|He].
  - destruct (N.eqb_spec (dint d) 0) as [Hz|Hz];
      rewrite !andb_true_iff, !negb_true_iff, !Z.ltb_ge in H.
    + split; [lia | done].
    + split; [lia|]. apply Hb; lia.
  - destruct (Z.ltb_spec n (Z.abs (dexp d)));
      rewrite !andb_true_iff, !negb_true_iff, !Z.ltb_ge in H.
    + split; [lia|]. apply Hb; lia.
    + split; [lia|]. apply Hb; lia.
Qed.

(** What [quantize] returns fits a column of [p <= 10] digits and two
    places. *)
Lemma quantize_Some_fits d q :
  quantize 10 2 d = Some q -> fits q /\ dexp q = -2.
Proof.
  unfold quantize, zero. cbv zeta. change (Z.opp 2) with (Z.neg 2).
  assert (forall s c, ndigits c <= 10 -> fits (mkDec s c (-2))) as Hfit.
  { intros s c Hc. unfold fits, decimal_validator. cbn [dint dexp].
    pose proof (ndigits_pos c).
    destruct (Z.leb_spec 0 (-2)); [lia|]. change (Z.abs (-2)) with 2.
    destruct (Z.ltb_spec (ndigits c) 2);
      rewrite !andb_true_iff, !negb_true_iff, !Z.ltb_ge; lia. }
  destruct (N.eqb_spec (dint d) 0) as [Hz|Hz].
  - intros [= <-]. split; [|done]. by apply Hfit.
  - destruct (Z.ltb_spec 10 (ndigits (dint d) + dexp d - 1 - -2 + 1)); [done|].
    destruct (Z.ltb_spec 10 (ndigits (dint (rescale d (-2))))); [done|].
    intros [= <-]. unfold rescale, zero in *.
    destruct (N.eqb_spec (dint d) 0); [done|].
    destruct (Z.leb_spec (-2) (dexp d)); cbn [dint dexp] in *;
      (split; [by apply Hfit | done]).
Qed.

(** A decimal that fits is written with its value. *)
Lemma quantize_fits d :
  fits d ->
  exists q, quantize 10 2 d = Some q /\ (value q == value d)%Q /\ fits q.
Proof.
  intros Hd. destruct (fits_hundredths d Hd) as [He Hb].
  unfold quantize, zero. cbv zeta. change (Z.opp 2) with (Z.neg 2).
  destruct (N.eqb_spec (dint d) 0) as [Hz|Hz].
  - eexists. split; [reflexivity|]. split.
    + by rewrite (value_zero d Hz), (value_zero (mkDec _ 0 _) eq_refl).
    + apply (quantize_Some_fits d). unfold quantize, zero. cbv zeta. change (Z.opp 2) with (Z.neg 2). by rewrite Hz.
  - specialize (Hb Hz).
    destruct (ndigits_spec (dint d) ltac:(lia)) as (Hn1 & Hlo & _).
    assert (0 < 10 ^ (dexp d + 2)) as Hp by (apply Z.pow_pos_nonneg; lia).
    assert (ndigits (dint d) + dexp d <= 8) as Hn.
    { destruct (Z.le_gt_cases (ndigits (dint d) + dexp d) 8) as [|Hgt]; [done|].
      assert (10 ^ 10 <= 10 ^ (ndigits (dint d) - 1) * 10 ^ (dexp d + 2)).
      { rewrite <- Z.pow_add_r by lia. apply Z.pow_le_mono_r; lia. }
      nia. }
    destruct (Z.ltb_spec 10 (ndigits (dint d) + dexp d - 1 - -2 + 1)); [lia|].
    unfold rescale, zero. destruct (N.eqb_spec (dint d) 0); [done|].
    destruct (Z.leb_spec (-2) (dexp d)); [|lia]. cbn [dint].
    set (c := (dint d * 10 ^ Z.to_N (dexp d - -2))%N).
    assert (Z.of_N c = Z.of_N (dint d) * 10 ^ (dexp d + 2)) as Hc.
    { unfold c. rewrite N2Z.inj_mul, of_N_pow10 by lia.
      by replace (dexp d - -2) with (dexp d + 2) by lia. }
    pose proof (ndigits_le c 10 ltac:(lia) ltac:(lia)).
    destruct (Z.ltb_spec 10 (ndigits c)); [lia|].
    eexists. split; [reflexivity|]. split.
    + unfold value, signed. cbn [dsign dint dexp]. rewrite Hc.
      assert (10 ^ dexp d == 10 ^ (-2) * inject_Z (10 ^ (dexp d + 2)))%Q as ->.
      { rewrite Qpow10_inject, <- Qpow10_add by lia.
        by replace (-2 + (dexp d + 2)) with (dexp d) by lia. }
      destruct (dsign d); rewrite ?inject_Z_opp, inject_Z_mult; ring.
    + apply (quantize_Some_fits d). unfold quantize, zero, rescale, zero. cbv zeta. change (Z.opp 2) with (Z.neg 2).
      destruct (N.eqb_spec (dint d) 0); [done|].
      destruct (Z.ltb_spec 10 (ndigits (dint d) + dexp d - 1 - -2 + 1)); [lia|].
      destruct (Z.leb_spec (-2) (dexp d)); [|lia]. cbn [dint]. fold c.
      by destruct (Z.ltb_spec 10 (ndigits c)); [lia|].
Qed.

(** A product by an integer that stays within 28 digits is exact. *)
Lemma mul_int_exact a n :
  Z.of_N (dint a) * Z.abs n < 10 ^ 28 ->
  (value (mul a (of_int n)) == value a * inject_Z n)%Q.
Proof.
  intros Hb. unfold mul, of_int. cbn [dsign dint dexp].
  rewrite Z.add_0_r, fix_small
    by (cbn [dint]; rewrite N2Z.inj_mul, N2Z.inj_abs_N; lia).
  unfold value, signed. cbn [dsign dint dexp].
  rewrite N2Z.inj_mul, N2Z.inj_abs_N.
  destruct (dsign a), (Z.ltb_spec n 0); cbn [xorb];
    rewrite ?inject_Z_opp, inject_Z_mult;
    [rewrite (Z.abs_neq n) by lia | rewrite (Z.abs_eq n) by lia
    | rewrite (Z.abs_neq n) by lia | rewrite (Z.abs_eq n) by lia];
    rewrite ?inject_Z_opp; ring.
Qed.

End ColumnFacts.

(** ** Users *)

(** X1. No user is both owner and employee, a user whose role passes
    validation is one of the two, and a role in another case, such as
    ["owner"], makes a user neither. *)
Theorem User_roles_exclusive u :
  (User.is_owner u && User.is_employee u = false)
  /\ (User.clean_role u = true ->
      xorb (User.is_owner u) (User.is_employee u) = true)
  /\ (User.role u = "owner"%string ->
      User.is_owner u = false /\ User.is_employee u = false
      /\ User.clean_role u = false).
Proof.
  unfold User.is_owner, User.is_employee, User.clean_role.
  split; [|split].
  - destruct (String.eqb_spec (User.role u) "OWNER") as [->|]; done.
  - intros H. apply andb_true_iff in H as [_ H].
    apply bool_decide_eq_true in H. cbn in H.
    apply list_elem_of_In in H. cbn in H.
    destruct H as [<-|[<-|[]]]; reflexivity.
  - intros ->. done.
Qed.

Lemma User_roles_exclusive_witness :
  User.clean_role (User.mk (Some 1%nat) "amina" User.role_default) = true
  /\ User.is_employee (User.mk (Some 1%nat) "amina" User.role_default) = true
  /\ User.is_owner (User.mk (Some 1%nat) "amina" User.role_default) = false.
Proof.
  assert (User.clean_role (User.mk (Some 1%nat) "amina" User.role_default) = true)
    as H by reflexivity.
  split; [exact H|].
  pose proof (proj1 (proj2 (User_roles_exclusive _)) H) as Hx.
  split; [reflexivity|]. revert Hx. vm_compute. reflexivity.
Defined.

Lemma adapt_fits d :
  fits d ->
  exists q, adapt_decimal 10 2 d = Ok q /\ (Dec.value q == Dec.value d)%Q /\ fits q.
Proof.
  intros Hd. destruct (ColumnFacts.quantize_fits d Hd) as (q & Hq & Hv & Hf).
  exists q. unfold adapt_decimal. by rewrite Hq.
Qed.

Lemma adapt_Ok_fits d q : adapt_decimal 10 2 d = Ok q -> fits q.
Proof.
  unfold adapt_decimal. destruct (Dec.quantize 10 2 d) eqn:E; [|done].
  intros [= <-]. by apply (ColumnFacts.quantize_Some_fits d).
Qed.

(** ** Receipts: what [save] takes and validation does not *)

(** X2. Validation reports a receipt whose quantity is below one or whose
    cost is below 0.01, but [save] does not validate: a receipt of zero
    units whose cost fits, whose product and whose receiver exist, is
    committed. A negative quantity is never committed. *)
Theorem StockReceipt_save_does_not_validate st r :
  (StockReceipt.quantity r < 1 -> "quantity" ∈ StockReceipt_full_clean st r)
  /\ (Dec.lt (StockReceipt.cost_price_at_receipt r) (Dec.cents 1) = true ->
      "cost_price_at_receipt" ∈ StockReceipt_full_clean st r)
  /\ (StockReceipt.quantity r < 0 -> exists e, StockReceipt_save st r = Err e)
  /\ (StockReceipt.quantity r = 0 ->
      fits (StockReceipt.cost_price_at_receipt r) ->
      is_Some (products st !! StockReceipt.product r) ->
      StockReceipt.received_by r ∈ users st ->
      exists st' r' k row,
        StockReceipt_save st r = Ok (st', r')
        /\ StockReceipt.id r' = Some k
        /\ stock_receipts st' !! k = Some row
        /\ StockReceipt.quantity row = 0
        /\ products st' = products st).
Proof.
  split; [|split; [|split]].
  - intros Hq. unfold StockReceipt_full_clean, StockReceipt_clean_fields.
    assert (min_value_int 1 (StockReceipt.quantity r) = false) as Hmin
      by (apply negb_false_iff, Z.ltb_lt; lia).
    rewrite !elem_of_app, !elem_of_if_nil, Hmin. tauto.
  - intros Hlt. unfold StockReceipt_full_clean, StockReceipt_clean_fields.
    unfold min_value_decimal.
    rewrite !elem_of_app, !elem_of_if_nil, Hlt. cbn [negb andb]. tauto.
  - intros Hq. unfold StockReceipt_save.
    destruct (adapt_decimal 10 2 _) as [c|e];
      cbn [mbind result_bind Django.bind]; [|by eexists].
    destruct (Z.leb_spec 0 (StockReceipt.quantity r)); [lia|].
    cbn. by eexists.
  - intros Hq Hfit Hp Hu. unfold StockReceipt_save.
    destruct (adapt_fits _ Hfit) as (c & Hc & _).
    rewrite Hc, Hq. cbn [mbind result_bind Django.bind].
    rewrite !bool_decide_eq_true_2 by done.
    cbn [check mbind result_bind Django.bind Z.leb Z.compare].
    eexists _, _, _, _. split; [reflexivity|]. cbn.
    split; [reflexivity|]. by rewrite lookup_insert_eq.
Qed.

Lemma StockReceipt_save_does_not_validate_witness :
  "quantity"
  ∈ StockReceipt_full_clean Example.shop
      (StockReceipt.mk None 1 0 (Dec.cents 1000) "" "" 1)
  /\ exists st' r' k row,
      StockReceipt_save Example.shop
        (StockReceipt.mk None 1 0 (Dec.cents 1000) "" "" 1) = Ok (st', r')
      /\ StockReceipt.id r' = Some k
      /\ stock_receipts st' !! k = Some row
      /\ StockReceipt.quantity row = 0
      /\ products st' = products Example.shop.
Proof.
  pose proof (StockReceipt_save_does_not_validate Example.shop
                (StockReceipt.mk None 1 0 (Dec.cents 1000) "" "" 1))
    as (H1 & _ & _ & H4).
  split.
  - apply H1. reflexivity.
  - apply H4.
    + reflexivity.
    + reflexivity.
    + vm_compute. eauto.
    + apply (bool_decide_unpack _). vm_compute. exact I.
Defined.

(** ** Deleting users and products *)

(** X3. Deleting a user who is the cashier of a sale or the receiver of a
    stock receipt raises ProtectedError. *)
Theorem User_delete_protected st pk :
  (exists k s, sales st !! k = Some s /\ Sale.cashier s = pk)
  \/ (exists k r, stock_receipts st !! k = Some r
                  /\ StockReceipt.received_by r = pk) ->
  User_delete st pk = Err ProtectedError.
Proof.
  unfold User_delete, Sale.cashier_on_delete,
    StockReceipt.received_by_on_delete.
  intros [(k & s & Hk & Hs)|(k & r & Hk & Hr)].
  - by rewrite (collect_PROTECT_refers _ _ _ _ _ Hk Hs).
  - rewrite (collect_PROTECT_refers _ _ _ _ _ Hk Hr).
    unfold collect. by case_decide.
Qed.

Lemma User_delete_protected_witness :
  (exists k s, sales Example.shop_sold !! k = Some s /\ Sale.cashier s = 1%nat)
  /\ User_delete Example.shop_sold 1 = Err ProtectedError.
Proof.
  assert (exists k s, sales Example.shop_sold !! k = Some s
                      /\ Sale.cashier s = 1%nat) as H.
  { exists 1%nat. eexists. split; vm_compute; reflexivity. }
  split; [exact H|]. apply User_delete_protected. left. exact H.
Defined.

Lemma collect_PROTECT_free {R} (fk : R -> nat) pk (tbl : gmap nat R) :
  map_Forall (fun _ r => fk r <> pk) tbl -> collect PROTECT fk pk tbl = Ok tbl.
Proof.
  intros Hall. cbn. case_decide as Hex; [|done].
  destruct Hex as (k & r & Hk & Hr). by destruct (Hall _ _ Hk).
Qed.

(** X4. Deleting a product that no stock receipt and no sale item refers
    to succeeds: its row goes, every other product row stays, and the
    other tables are as they were. *)
Theorem Product_delete_unreferenced st pk :
  map_Forall (fun _ r => StockReceipt.product r <> pk) (stock_receipts st) ->
  map_Forall (fun _ i => SaleItem.product i <> pk) (sale_items st) ->
  exists st',
    Product_delete st pk = Ok st'
    /\ products st' !! pk = None
    /\ (forall k, k <> pk -> products st' !! k = products st !! k)
    /\ stock_receipts st' = stock_receipts st
    /\ sale_items st' = sale_items st
    /\ sales st' = sales st.
Proof.
  intros Hr Hi. unfold Product_delete, StockReceipt.product_on_delete,
    SaleItem.product_on_delete.
  rewrite (collect_PROTECT_free _ _ _ Hr), (collect_PROTECT_free _ _ _ Hi).
  eexists. split; [reflexivity|]. cbn.
  split; [apply lookup_delete_eq|]. split; [|done].
  intros k Hk. by apply lookup_delete_ne.
Qed.

Lemma Product_delete_unreferenced_witness :
  exists st',
    Product_delete Example.shop 1 = Ok st' /\ products st' !! 1%nat = None.
Proof.
  destruct (Product_delete_unreferenced Example.shop 1)
    as (st' & H1 & H2 & _).
  - apply (bool_decide_unpack _). vm_compute. exact I.
  - apply (bool_decide_unpack _). vm_compute. exact I.
  - exists st'. by split.
Defined.

(** ** What [SaleItem.save] computes *)



Lemma dint_abs_signed d : Z.of_N (Dec.dint d) = Z.abs (Dec.signed d).
Proof. unfold Dec.signed. destruct (Dec.dsign d); lia. Qed.

Lemma fits_coefficient d : fits d -> Z.of_N (Dec.dint d) < 10 ^ 10.
Proof.
  intros Hd. destruct (ColumnFacts.fits_hundredths d Hd) as [He Hb].
  destruct (N.eq_dec (Dec.dint d) 0%N) as [->|Hz]; [done|].
  specialize (Hb Hz).
  assert (0 < 10 ^ (Dec.dexp d + 2)) by (apply Z.pow_pos_nonneg; lia).
  nia.
Qed.

Lemma sub_fits_coefficient a b :
  fits a -> fits b -> Z.of_N (Dec.dint (Dec.sub a b)) < 2 * 10 ^ 10.
Proof.
  intros Ha Hb.
  destruct (DecFacts.add_exact a (Dec.negate b) (DecFacts.fits_bounded _ Ha)
              (DecFacts.bounded_negate _ (DecFacts.fits_bounded _ Hb)))
    as [_ Hs].
  rewrite DecFacts.signed_negate in Hs. cbn [Dec.negate Dec.dexp] in Hs.
  set (m := Z.min (Dec.dexp a) (Dec.dexp b)) in *.
  destruct (ColumnFacts.fits_hundredths a Ha) as [Hea Hba].
  destruct (ColumnFacts.fits_hundredths b Hb) as [Heb Hbb].
  assert (forall d, -2 <= Dec.dexp d -> m <= Dec.dexp d ->
            (Dec.dint d <> 0%N ->
             Z.of_N (Dec.dint d) * 10 ^ (Dec.dexp d + 2) < 10 ^ 10) ->
            Z.abs (Dec.signed d * 10 ^ (Dec.dexp d - m)) < 10 ^ 10) as Hone.
  { intros d He Hm Hd. rewrite Z.abs_mul, <- dint_abs_signed.
    assert (0 < 10 ^ (Dec.dexp d - m)) by (apply Z.pow_pos_nonneg; lia).
    rewrite (Z.abs_eq (10 ^ _)) by lia.
    destruct (N.eq_dec (Dec.dint d) 0%N) as [->|Hz]; [done|].
    specialize (Hd Hz).
    assert (10 ^ (Dec.dexp d - m) <= 10 ^ (Dec.dexp d + 2))
      by (apply Z.pow_le_mono_r; lia).
    nia. }
  pose proof (Hone a Hea ltac:(lia) Hba).
  pose proof (Hone b Heb ltac:(lia) Hbb).
  rewrite dint_abs_signed. unfold Dec.sub. rewrite Hs. lia.
Qed.

(** X6. For a unit price and a unit cost that fit their columns and a
    quantity below 10^17 in absolute value, the subtotal and the profit
    that [SaleItem.save] computes are exact: the price times the quantity,
    and the difference of price and cost times the quantity. *)
Theorem SaleItem_save_fields_exact i :
  fits (SaleItem.unit_price i) -> fits (SaleItem.unit_cost i) ->
  Z.abs (SaleItem.quantity i) < 10 ^ 17 ->
  SaleItem.subtotal i = None -> SaleItem.profit i = None ->
  exists s p,
    SaleItem.subtotal (SaleItem.save_fields i) = Some s
    /\ SaleItem.profit (SaleItem.save_fields i) = Some p
    /\ (Dec.value s
        == Dec.value (SaleItem.unit_price i) * inject_Z (SaleItem.quantity i))%Q
    /\ (Dec.value p
        == (Dec.value (SaleItem.unit_price i) - Dec.value (SaleItem.unit_cost i))
           * inject_Z (SaleItem.quantity i))%Q.
Proof.
  intros Hp Hc Hq Hs Hpr. unfold SaleItem.save_fields.
  rewrite Hs, Hpr. cbn [SaleItem.falsy SaleItem.subtotal SaleItem.profit].
  eexists _, _. split; [reflexivity|]. split; [reflexivity|].
  pose proof (fits_coefficient _ Hp). pose proof (sub_fits_coefficient _ _ Hp Hc).
  change (10 ^ 10) with 10000000000 in *.
  change (10 ^ 17) with 100000000000000000 in *.
  split.
  - apply ColumnFacts.mul_int_exact.
    change (10 ^ 28) with 10000000000000000000000000000. nia.
  - rewrite ColumnFacts.mul_int_exact, DecFacts.sub_exact by
      (done || change (10 ^ 28) with 10000000000000000000000000000; nia).
    reflexivity.
Qed.

Lemma SaleItem_save_fields_exact_witness :
  exists s p,
    SaleItem.subtotal (SaleItem.save_fields Example.line) = Some s
    /\ SaleItem.profit (SaleItem.save_fields Example.line) = Some p
    /\ (Dec.value s == Dec.value (Dec.cents 1800) * inject_Z 2)%Q
    /\ (Dec.value p
        == (Dec.value (Dec.cents 1800) - Dec.value (Dec.cents 1000))
           * inject_Z 2)%Q.
Proof.
  apply (SaleItem_save_fields_exact Example.line); reflexivity.
Defined.

(** ** Generated order ids *)

Lemma generated_order_id rnd s :
  Sale.order_id s = EmptyString ->
  Sale.order_id (Sale.save_fields rnd s)
  = ("#ORD-" ++ Py.upper (Py.hex_fixed 8 ((rnd mod 2 ^ 128) / 2 ^ 96)%N))%string.
Proof.
  intros Hs. unfold Sale.save_fields. rewrite Hs.
  cbn [Py.truthy negb Sale.order_id Sale.with_order_id].
  unfold Py.uuid4_hex. by rewrite (prefix_hex_fixed 8 24), uuid4_int_high.
Qed.

(** X7. A generated order id has thirteen characters and passes the
    validation of the field; a Sale that is validated before it is saved,
    with its order id still empty, is reported under [order_id]. *)
Theorem generated_order_id_validates rnd s :
  Sale.order_id s = EmptyString ->
  String.length (Sale.order_id (Sale.save_fields rnd s)) = 13%nat
  /\ char_field 20 false (Sale.order_id (Sale.save_fields rnd s)) = true
  /\ forall st, "order_id" ∈ Sale_full_clean st s.
Proof.
  intros Hs. rewrite (generated_order_id rnd s Hs).
  assert (String.length
            ("#ORD-" ++ Py.upper (Py.hex_fixed 8 ((rnd mod 2 ^ 128) / 2 ^ 96)%N))
          = 13%nat) as Hlen.
  { reflexivity. }
  split; [exact Hlen|]. split.
  - unfold char_field. cbn [andb Py.truthy String.append negb].
    rewrite Hlen. reflexivity.
  - intros st. unfold Sale_full_clean, Sale.clean_fields.
    assert (char_field 20 false (Sale.order_id s) = false) as Hc
      by (by rewrite Hs).
    do 3 (apply elem_of_app; left). rewrite Hc. by apply list_elem_of_singleton.
Qed.

Lemma generated_order_id_validates_witness :
  String.length
    (Sale.order_id (Sale.save_fields 7 Example.sale)) = 13%nat.
Proof.
  apply (proj1 (generated_order_id_validates 7 Example.sale eq_refl)).
Defined.

(** X8. [Sale.save] does not try again: when a new Sale without order id is
    saved after another one and the two UUIDs agree on their 32 high bits,
    the generated ids are the same and the second save raises; the store
    then holds the first sale only. *)
Theorem generated_order_id_collision rnd1 rnd2 st s1 s2 st1 s1' :
  Sale.order_id s1 = EmptyString -> Sale.order_id s2 = EmptyString ->
  Sale.id s2 = None ->
  ((rnd1 mod 2 ^ 128) / 2 ^ 96 = (rnd2 mod 2 ^ 128) / 2 ^ 96)%N ->
  Sale_save rnd1 st s1 = Ok (st1, s1') ->
  (exists e, Sale_save rnd2 st1 s2 = Err e)
  /\ step st1 (SaveSale rnd2 s2) = st1.
Proof.
  intros H1 H2 Hid Hbits Hsave.
  assert (exists e, Sale_save rnd2 st1 s2 = Err e) as [e He].
  { unfold Sale_save in Hsave. bind_inv Hsave. injection Hsave as <- <-.
    set (k := target_pk (Sale.id (Sale.save_fields rnd1 s1)) (next_sale st)) in *.
    assert (Sale.id (Sale.save_fields rnd2 s2) = None) as Hid2
      by (unfold Sale.save_fields; by destruct (negb _)).
    unfold Sale_save. cbn [sales next_sale users]. rewrite Hid2.
    cbn [target_pk].
    assert (unique_among Sale.order_id
              (Some (next_sale st `max` S k)%nat)
              (Sale.order_id (Sale.save_fields rnd2 s2))
              (<[k := Sale.mk (Some k) (Sale.order_id (Sale.save_fields rnd1 s1))
                        (Sale.cashier (Sale.save_fields rnd1 s1)) a a0 a1 a2
                        (Sale.payment_method (Sale.save_fields rnd1 s1))
                        (Sale.notes (Sale.save_fields rnd1 s1))]> (sales st))
            = false) as Hdup.
    { apply bool_decide_eq_false. intros Hall.
      destruct (Hall k _ (lookup_insert_eq _ _ _)) as [Heq|Hne].
      - injection Heq. lia.
      - apply Hne. cbn. by rewrite !generated_order_id, Hbits. }
    rewrite Hdup.
    repeat match goal with
      | |- context [mbind _ (adapt_decimal ?m ?p ?d)] =>
          destruct (adapt_decimal m p d);
          cbn [mbind result_bind Django.bind]; [|by eexists]
      end.
    cbn. by eexists. }
  split; [by exists e|].
  cbn -[Sale_save]. by rewrite He.
Qed.

Lemma generated_order_id_collision_witness :
  exists e,
    Sale_save (2 ^ 96 * 5 + 1) (step Example.shop (SaveSale (2 ^ 96 * 5) Example.sale))
      Example.sale = Err e.
Proof.
  destruct (generated_order_id_collision (2 ^ 96 * 5) (2 ^ 96 * 5 + 1)
              Example.shop Example.sale Example.sale
              (step Example.shop (SaveSale (2 ^ 96 * 5) Example.sale))
              (Sale.mk (Some 1%nat) "#ORD-00000005" 1 (Dec.cents 3600)
                 (Dec.cents 0) (Dec.cents 3600) (Dec.cents 1600) "CASH" ""))
    as [H _]; try reflexivity.
  exact H.
Defined.

(** ** The rows that a save writes *)

Lemma Product_save_inv st p st' p' :
  Product_save st p = Ok (st', p') ->
  exists k row,
    products st' = <[k := row]> (products st)
    /\ unique_among Product.sku (Some k) (Product.sku row) (products st) = true
    /\ fits (Product.cost_price row) /\ fits (Product.selling_price row)
    /\ 0 <= Product.stock_quantity row /\ 0 <= Product.restock_threshold row
    /\ stock_receipts st' = stock_receipts st /\ sales st' = sales st
    /\ sale_items st' = sale_items st /\ users st' = users st.
Proof.
  unfold Product_save. intros H. bind_inv H. injection H as <- <-.
  eexists _, _. cbn. split; [reflexivity|]. split; [done|].
  split; [by eapply adapt_Ok_fits|]. split; [by eapply adapt_Ok_fits|].
  repeat split; try done; cbn in *; lia.
Qed.

Lemma StockReceipt_save_inv st r st' r' :
  StockReceipt_save st r = Ok (st', r') ->
  exists k row,
    stock_receipts st' = <[k := row]> (stock_receipts st)
    /\ is_Some (products st !! StockReceipt.product row)
    /\ StockReceipt.received_by row ∈ users st
    /\ fits (StockReceipt.cost_price_at_receipt row)
    /\ 0 <= StockReceipt.quantity row
    /\ products st' = products st /\ sales st' = sales st
    /\ sale_items st' = sale_items st /\ users st' = users st.
Proof.
  unfold StockReceipt_save. intros H. bind_inv H. injection H as <- <-.
  eexists _, _. cbn. split; [reflexivity|].
  repeat match goal with
    | E : bool_decide _ = true |- _ => apply bool_decide_eq_true in E
    end.
  split; [done|]. split; [done|]. split; [by eapply adapt_Ok_fits|].
  repeat split; try done; cbn in *; lia.
Qed.

Lemma Sale_save_inv rnd st s st' s' :
  Sale_save rnd st s = Ok (st', s') ->
  exists k row,
    sales st' = <[k := row]> (sales st)
    /\ Sale.cashier row ∈ users st
    /\ fits (Sale.subtotal row) /\ fits (Sale.tax row)
    /\ fits (Sale.total row) /\ fits (Sale.profit row)
    /\ products st' = products st /\ stock_receipts st' = stock_receipts st
    /\ sale_items st' = sale_items st /\ users st' = users st.
Proof.
  unfold Sale_save. intros H. bind_inv H. injection H as <- <-.
  eexists _, _. cbn. split; [reflexivity|].
  repeat match goal with
    | E : bool_decide _ = true |- _ => apply bool_decide_eq_true in E
    end.
  split; [done|].
  repeat (split; [by eapply adapt_Ok_fits|]). done.
Qed.

Lemma adapt_required_fits x q : adapt_required x = Ok q -> fits q.
Proof. destruct x; [apply adapt_Ok_fits | done]. Qed.

Lemma SaleItem_save_inv st i st' i' :
  SaleItem_save st i = Ok (st', i') ->
  exists k row,
    sale_items st' = <[k := row]> (sale_items st)
    /\ is_Some (sales st !! SaleItem.sale row)
    /\ is_Some (products st !! SaleItem.product row)
    /\ fits (SaleItem.unit_price row) /\ fits (SaleItem.unit_cost row)
    /\ fits_opt (SaleItem.subtotal row) /\ fits_opt (SaleItem.profit row)
    /\ 0 <= SaleItem.quantity row
    /\ products st' = products st /\ stock_receipts st' = stock_receipts st
    /\ sales st' = sales st /\ users st' = users st.
Proof.
  unfold SaleItem_save. intros H. bind_inv H. injection H as <- <-.
  eexists _, _. cbn. split; [reflexivity|].
  repeat match goal with
    | E : bool_decide _ = true |- _ => apply bool_decide_eq_true in E
    end.
  split; [done|]. split; [done|].
  split; [by eapply adapt_Ok_fits|]. split; [by eapply adapt_Ok_fits|].
  split; [by eapply adapt_required_fits|].
  split; [by eapply adapt_required_fits|].
  repeat split; try done; cbn in *; lia.
Qed.

Lemma collect_PROTECT_Ok_free {R} (fk : R -> nat) pk (tbl tbl' : gmap nat R) :
  collect PROTECT fk pk tbl = Ok tbl' ->
  map_Forall (fun _ r => fk r <> pk) tbl.
Proof.
  cbn. case_decide as Hex; [done|]. intros _ k r Hk Hr.
  apply Hex. by exists k, r.
Qed.

Lemma Product_delete_inv st pk st' :
  Product_delete st pk = Ok st' ->
  map_Forall (fun _ r => StockReceipt.product r <> pk) (stock_receipts st)
  /\ map_Forall (fun _ i => SaleItem.product i <> pk) (sale_items st).
Proof.
  unfold Product_delete. intros H. bind_inv H.
  split; by eapply collect_PROTECT_Ok_free.
Qed.

(** ** Referential integrity *)

Lemma is_Some_insert {A} (m : gmap nat A) k x j :
  is_Some (m !! j) -> is_Some (<[k := x]> m !! j).
Proof.
  intros H. rewrite lookup_insert. by case_decide.
Qed.

Lemma step_refs_exist st c : refs_exist st -> refs_exist (step st c).
Proof.
  intros (Hr & Hs & Hi). step_cases c.
  - destruct (Product_save st p) as [[st' p']|] eqn:E; [|done].
    apply Product_save_inv in E
      as (k & row & Hp & _ & _ & _ & _ & _ & Hr' & Hs' & Hi' & Hu).
    unfold refs_exist. rewrite Hp, Hr', Hs', Hi', Hu.
    split; [|split; [done|]].
    + intros j r Hj. destruct (Hr j r Hj). split; [by apply is_Some_insert|done].
    + intros j i Hj. destruct (Hi j i Hj). split; [done|by apply is_Some_insert].
  - destruct (StockReceipt_save st r) as [[st' r']|] eqn:E; [|done].
    apply StockReceipt_save_inv in E
      as (k & row & Hr' & Hp1 & Hu1 & _ & _ & Hp & Hs' & Hi' & Hu).
    unfold refs_exist. rewrite Hp, Hr', Hs', Hi', Hu.
    split; [|done]. by apply map_Forall_insert_2.
  - destruct (Sale_save rnd st s) as [[st' s']|] eqn:E; [|done].
    apply Sale_save_inv in E
      as (k & row & Hs' & Hu1 & _ & _ & _ & _ & Hp & Hr' & Hi' & Hu).
    unfold refs_exist. rewrite Hp, Hr', Hs', Hi', Hu.
    split; [done|]. split; [by apply map_Forall_insert_2|].
    intros j i Hj. destruct (Hi j i Hj). split; [by apply is_Some_insert|done].
  - destruct (SaleItem_save st i) as [[st' i']|] eqn:E; [|done].
    apply SaleItem_save_inv in E
      as (k & row & Hi' & Hs1 & Hp1 & _ & _ & _ & _ & _ & Hp & Hr' & Hs' & Hu).
    unfold refs_exist. rewrite Hp, Hr', Hs', Hi', Hu.
    split; [done|]. split; [done|]. by apply map_Forall_insert_2.
  - destruct (Product_delete st pk) as [st'|] eqn:E; [|done].
    pose proof (Product_delete_inv _ _ _ E) as [Hfr Hfi].
    apply Product_delete_Ok in E as (Hp & Hr' & Hs' & Hi' & Hu).
    unfold refs_exist. rewrite Hp, Hr', Hs', Hi', Hu.
    split; [|split; [done|]].
    + intros j r Hj. destruct (Hr j r Hj) as [Hx ?]. split; [|done].
      rewrite lookup_delete_ne; [done|]. intros ->. by apply (Hfr j r Hj).
    + intros j i Hj. destruct (Hi j i Hj) as [? Hx]. split; [done|].
      rewrite lookup_delete_ne; [done|]. intros ->. by apply (Hfi j i Hj).
  - cbn. unfold refs_exist. cbn. split; [done|]. split.
    + by apply map_Forall_delete.
    + intros j i Hj. apply map_lookup_filter_Some in Hj as [Hj Hne].
      cbn in Hne. destruct (Hi j i Hj) as [Hx ?]. split; [|done].
      by rewrite lookup_delete_ne.
Qed.

Lemma User_delete_refs_exist st pk st' :
  refs_exist st -> User_delete st pk = Ok st' -> refs_exist st'.
Proof.
  intros (Hr & Hs & Hi) H. unfold User_delete in H. bind_inv H.
  pose proof (collect_PROTECT_Ok_free _ _ _ _ E) as Hfs.
  pose proof (collect_PROTECT_Ok_free _ _ _ _ E0) as Hfr.
  apply collect_PROTECT_Ok in E, E0. subst. injection H as <-.
  unfold refs_exist. cbn. split; [|split; [|done]].
  - intros j r Hj. destruct (Hr j r Hj) as [? Hu]. split; [done|].
    apply elem_of_difference. split; [done|].
    rewrite elem_of_singleton. by apply (Hfr j r Hj).
  - intros j s Hj. apply elem_of_difference. split; [by apply (Hs j s Hj)|].
    rewrite elem_of_singleton. by apply (Hfs j s Hj).
Qed.

Lemma shop_step_refs_exist st c : refs_exist st -> refs_exist (shop_step st c).
Proof.
  intros Hst. destruct c as [c|pk]; cbn -[User_delete].
  - by apply step_refs_exist.
  - destruct (User_delete st pk) as [st'|] eqn:E; [|done].
    by apply (User_delete_refs_exist st pk).
Qed.

(** X9. Referential integrity is an invariant: from a store in which
    every receipt points to a product and a user, every sale to a user and
    every sale item to a sale and a product, no sequence of saves of
    products, receipts, sales and sale items and of deletions of products,
    sales and users reaches a store with a dangling key. *)
Theorem shop_run_refs_exist cs :
  forall st, refs_exist st -> refs_exist (shop_run st cs).
Proof.
  induction cs as [|c cs IH]; intros st Hst; [done|].
  cbn. apply IH. by apply shop_step_refs_exist.
Qed.

Lemma shop_run_refs_exist_witness :
  refs_exist (mkStore {[1%nat; 2%nat]} ∅ ∅ ∅ ∅ 1 1 1 1)
  /\ refs_exist
       (shop_run (mkStore {[1%nat; 2%nat]} ∅ ∅ ∅ ∅ 1 1 1 1)
          [ModelCall (SaveProduct Example.lipstick);
           ModelCall (SaveSale 7 Example.sale);
           ModelCall (SaveSaleItem Example.line);
           DeleteUser 1; DeleteUser 2;
           ModelCall (DeleteProduct 1); ModelCall (DeleteSale 1);
           DeleteUser 1; ModelCall (DeleteProduct 1)]).
Proof.
  assert (refs_exist (mkStore {[1%nat; 2%nat]} ∅ ∅ ∅ ∅ 1 1 1 1)) as H.
  { split; [|split]; apply map_Forall_empty. }
  split; [exact H|]. by apply shop_run_refs_exist.
Defined.

(** ** SKUs *)

Lemma step_skus_unique st c : skus_unique st -> skus_unique (step st c).
Proof.
  intros Hst. step_cases c.
  - destruct (Product_save st p) as [[st' p']|] eqn:E; [|done].
    apply Product_save_inv in E as (k & row & Hp & Huniq & _).
    apply bool_decide_eq_true in Huniq.
    intros k1 k2 p1 p2. rewrite Hp, !lookup_insert.
    repeat case_decide; subst; intros H1 H2 Heq; simplify_eq; try done.
    + destruct (Huniq _ _ H2) as [?|Hne]; [by simplify_eq | by rewrite Heq in Hne].
    + destruct (Huniq _ _ H1) as [?|Hne]; [by simplify_eq | by rewrite Heq in Hne].
    + by apply (Hst _ _ _ _ H1 H2).
  - destruct (StockReceipt_save st r) as [[st' r']|] eqn:E; [|done].
    apply StockReceipt_save_Ok in E as (k & row & _ & _ & _ & Hp & _).
    unfold skus_unique. by rewrite Hp.
  - destruct (Sale_save rnd st s) as [[st' s']|] eqn:E; [|done].
    apply Sale_save_Ok in E as (k & row & _ & _ & _ & Hp & _).
    unfold skus_unique. by rewrite Hp.
  - destruct (SaleItem_save st i) as [[st' i']|] eqn:E; [|done].
    apply SaleItem_save_Ok in E as (k & row & _ & Hp & _).
    unfold skus_unique. by rewrite Hp.
  - destruct (Product_delete st pk) as [st'|] eqn:E; [|done].
    apply Product_delete_Ok in E as (Hp & _).
    intros k1 k2 p1 p2. rewrite Hp. intros H1 H2.
    apply lookup_delete_Some in H1 as [_ H1].
    apply lookup_delete_Some in H2 as [_ H2].
    by apply (Hst _ _ _ _ H1 H2).
  - done.
Qed.

(** X10. The SKU is a key: from a store whose product rows have distinct
    SKUs no sequence of calls reaches one where two rows share a SKU, and
    saving a new product under the SKU of a row raises. *)
Theorem run_skus_unique st :
  skus_unique st ->
  (forall cs, skus_unique (run st cs))
  /\ (forall p k other,
        products st !! k = Some other -> Product.sku other = Product.sku p ->
        target_pk (Product.id p) (next_product st) <> k ->
        exists e, Product_save st p = Err e).
Proof.
  intros Hst. split.
  - intros cs. revert st Hst.
    induction cs as [|c cs IH]; intros st Hst; [done|].
    cbn. apply IH. by apply step_skus_unique.
  - intros p k other Hk Hsku Hpk.
    assert (unique_among Product.sku
              (Some (target_pk (Product.id p) (next_product st)))
              (Product.sku p) (products st) = false) as Hdup.
    { apply bool_decide_eq_false. intros Hall.
      destruct (Hall _ _ Hk) as [?|?]; [by simplify_eq | done]. }
    unfold Product_save. rewrite Hdup.
    repeat match goal with
      | |- context [mbind _ (adapt_decimal ?m ?q ?d)] =>
          destruct (adapt_decimal m q d);
          cbn [mbind result_bind Django.bind]; [|by eexists]
      end.
    cbn. by eexists.
Qed.

Lemma run_skus_unique_witness :
  exists e, Product_save Example.shop Example.lipstick = Err e.
Proof.
  assert (skus_unique (mkStore {[1%nat]} ∅ ∅ ∅ ∅ 1 1 1 1)) as H0.
  { intros k1 k2 p1 p2 H1. cbn in H1. by rewrite lookup_empty in H1. }
  pose proof (proj1 (run_skus_unique _ H0) [SaveProduct Example.lipstick]) as H.
  apply (proj2 (run_skus_unique Example.shop H) Example.lipstick 1%nat
           (Product.mk (Some 1%nat) "LIP-001" "Velvet Lipstick" "Cosmo" "LIPS" ""
              (Dec.cents 1000) (Dec.cents 1800) 5 10 true)).
  - vm_compute. reflexivity.
  - reflexivity.
  - vm_compute. lia.
Defined.

(** ** Saving again *)

Lemma save_fields_truthy rnd s :
  Py.truthy (Sale.order_id (Sale.save_fields rnd s)) = true.
Proof.
  unfold Sale.save_fields.
  destruct (Py.truthy (Sale.order_id s)) eqn:E; [done|]. reflexivity.
Qed.

Lemma unique_among_insert {R} (col : R -> string) k v (row : R) tbl :
  unique_among col (Some k) v tbl = true ->
  unique_among col (Some k) v (<[k := row]> tbl) = true.
Proof.
  intros H. apply bool_decide_eq_true in H. apply bool_decide_eq_true.
  intros j r. rewrite lookup_insert. case_decide; [by left; subst|].
  apply H.
Qed.

(** X11. Saving again the instance that [Sale.save] returned, whatever
    the next UUID, succeeds and changes nothing: the order id is not
    generated anew, and the store and the instance are the same. *)
Theorem Sale_save_again rnd rnd' st s st' s' :
  Sale_save rnd st s = Ok (st', s') ->
  Sale_save rnd' st' s' = Ok (st', s')
  /\ Sale.order_id (Sale.save_fields rnd' s') = Sale.order_id s'.
Proof.
  intros H. unfold Sale_save in H. bind_inv H. injection H as <- <-.
  set (s1 := Sale.save_fields rnd s) in *.
  set (k := target_pk (Sale.id s1) (next_sale st)) in *.
  set (s' := Sale.mk (Some k) (Sale.order_id s1) (Sale.cashier s1)
               (Sale.subtotal s1) (Sale.tax s1) (Sale.total s1)
               (Sale.profit s1) (Sale.payment_method s1) (Sale.notes s1)).
  assert (Sale.save_fields rnd' s' = s') as Hsame.
  { unfold Sale.save_fields. cbn [Sale.order_id s'].
    unfold s1. by rewrite save_fields_truthy. }
  split; [|by rewrite Hsame].
  unfold Sale_save. rewrite Hsame. cbn [s' Sale.subtotal Sale.tax Sale.total
    Sale.profit Sale.id Sale.order_id Sale.cashier Sale.payment_method
    Sale.notes sales users next_sale next_product next_receipt next_item
    products stock_receipts sale_items target_pk].
  rewrite E, E0, E1, E2. cbn [mbind result_bind Django.bind].
  rewrite (unique_among_insert _ _ _ _ _ E3), E4.
  cbn [check mbind result_bind Django.bind].
  rewrite insert_insert_eq.
  replace ((next_sale st `max` S k) `max` S k)%nat
    with (next_sale st `max` S k)%nat by lia.
  reflexivity.
Qed.

Lemma Sale_save_again_witness :
  exists st' s',
    Sale_save 7 Example.shop Example.sale = Ok (st', s')
    /\ Sale_save 8 st' s' = Ok (st', s').
Proof.
  eexists _, _. split; [vm_compute; reflexivity|].
  apply (Sale_save_again 7 8 Example.shop Example.sale). vm_compute. reflexivity.
Defined.

Lemma SaleItem_save_fields_idem i :
  SaleItem.save_fields (SaleItem.save_fields i) = SaleItem.save_fields i.
Proof.
  unfold SaleItem.save_fields. cbn [SaleItem.subtotal SaleItem.profit
    SaleItem.unit_price SaleItem.unit_cost SaleItem.quantity SaleItem.id
    SaleItem.sale SaleItem.product].
  f_equal.
  - destruct (SaleItem.falsy (SaleItem.subtotal i)) eqn:E; [|by rewrite E].
    by destruct (SaleItem.falsy (Some _)).
  - destruct (SaleItem.falsy (SaleItem.profit i)) eqn:E; [|by rewrite E].
    by destruct (SaleItem.falsy (Some _)).
Qed.

Lemma SaleItem_save_fields_fixed j k :
  SaleItem.save_fields j = j ->
  SaleItem.save_fields
    (SaleItem.mk k (SaleItem.sale j) (SaleItem.product j) (SaleItem.quantity j)
       (SaleItem.unit_price j) (SaleItem.unit_cost j) (SaleItem.subtotal j)
       (SaleItem.profit j))
  = SaleItem.mk k (SaleItem.sale j) (SaleItem.product j) (SaleItem.quantity j)
      (SaleItem.unit_price j) (SaleItem.unit_cost j) (SaleItem.subtotal j)
      (SaleItem.profit j).
Proof.
  destruct j as [jid js jp jq jup juc jsub jpro].
  unfold SaleItem.save_fields. cbn. intros [= Hs Hp]. by rewrite Hs, Hp.
Qed.

(** X12. Saving again the instance that [SaleItem.save] returned succeeds
    and changes nothing: the subtotal and the profit are the ones of the
    first save. *)
Theorem SaleItem_save_again st i st' i' :
  SaleItem_save st i = Ok (st', i') -> SaleItem_save st' i' = Ok (st', i').
Proof.
  intros H. unfold SaleItem_save in H.
  pose proof (SaleItem_save_fields_idem i) as Hidem.
  remember (SaleItem.save_fields i) as j eqn:Hj. clear Hj.
  bind_inv H. injection H as <- <-.
  set (k := target_pk (SaleItem.id j) (next_item st)) in *.
  unfold SaleItem_save.
  rewrite (SaleItem_save_fields_fixed j (Some k) Hidem).
  cbn [SaleItem.subtotal SaleItem.profit
    SaleItem.unit_price SaleItem.unit_cost SaleItem.quantity SaleItem.id
    SaleItem.sale SaleItem.product sales users next_sale next_product
    next_receipt next_item products stock_receipts sale_items target_pk].
  rewrite E, E0, E1, E2. cbn [mbind result_bind Django.bind].
  rewrite E3, E4, E5. cbn [check mbind result_bind Django.bind].
  rewrite insert_insert_eq.
  replace ((next_item st `max` S k) `max` S k)%nat
    with (next_item st `max` S k)%nat by lia.
  reflexivity.
Qed.

Lemma SaleItem_save_again_witness :
  exists st' i',
    SaleItem_save Example.shop_sold Example.zero_line = Ok (st', i')
    /\ SaleItem_save st' i' = Ok (st', i').
Proof.
  eexists _, _. split; [vm_compute; reflexivity|].
  apply (SaleItem_save_again Example.shop_sold Example.zero_line).
  vm_compute. reflexivity.
Defined.

(** ** The sign of the profit percentage *)

Lemma close_same_sign (x v : Q) :
  (Qabs (v - x) * inject_Z (10 ^ 27) <= Qabs x)%Q ->
  ((0 < x -> 0 < v) /\ (x == 0 -> v == 0) /\ (x < 0 -> v < 0))%Q.
Proof.
  change (inject_Z (10 ^ 27)) with 1000000000000000000000000000%Q.
  intros H.
  destruct (Qlt_le_dec x 0) as [Hx|Hx];
    [rewrite (Qabs_neg x) in H by (by apply Qlt_le_weak)
    |rewrite (Qabs_pos x) in H by done];
    (destruct (Qlt_le_dec (v - x) 0) as [Hd|Hd];
     [rewrite (Qabs_neg (v - x)) in H by (by apply Qlt_le_weak)
     |rewrite (Qabs_pos (v - x)) in H by done]);
    repeat split; intros; lra.
Qed.

Lemma value_pos d : 0 < Dec.signed d -> (0 < Dec.value d)%Q.
Proof.
  intros Hd. unfold Dec.value.
  apply Qmult_lt_0_compat; [|apply DecFacts.Qpow10_pos].
  change 0%Q with (inject_Z 0). by rewrite <- Zlt_Qlt.
Qed.

Lemma quotient_sign (a b : Q) :
  (0 < b)%Q ->
  ((0 < a -> 0 < a / b) /\ (a == 0 -> a / b == 0) /\ (a < 0 -> a / b < 0))%Q.
Proof.
  intros Hb.
  assert (0 < / b)%Q as Hi by (by apply Qinv_lt_0_compat).
  unfold Qdiv. split; [|split].
  - intros Ha. by apply Qmult_lt_0_compat.
  - intros ->. apply Qmult_0_l.
  - intros Ha.
    assert (0 < - a * / b)%Q by (apply Qmult_lt_0_compat; [lra|done]).
    assert (- a * / b == - (a * / b))%Q by ring. lra.
Qed.

(** X13. For prices that fit their columns and a positive cost price,
    [profit_percentage] has the sign of the margin: positive when the
    selling price is above the cost price, zero when they are equal,
    negative when it is below. *)
Theorem profit_percentage_sign p :
  fits (Product.selling_price p) -> fits (Product.cost_price p) ->
  0 < Dec.signed (Product.cost_price p) ->
  exists r,
    Product.profit_percentage p = Some r
    /\ ((Dec.value (Product.cost_price p) < Dec.value (Product.selling_price p)
         -> 0 < Dec.value r)
        /\ (Dec.value (Product.selling_price p)
            == Dec.value (Product.cost_price p) -> Dec.value r == 0)
        /\ (Dec.value (Product.selling_price p) < Dec.value (Product.cost_price p)
            -> Dec.value r < 0))%Q.
Proof.
  intros Hs Hc Hpos.
  assert (Dec.dint (Product.cost_price p) <> 0%N) as Hnz.
  { unfold Dec.signed in Hpos. destruct (Dec.dsign _); lia. }
  destruct (DecFacts.div_value (Product.profit_per_unit p)
              (Product.cost_price p) Hnz) as (q & Hq & Hlt & Hacc).
  exists (Dec.mul q (Dec.of_int 100)). split.
  { unfold Product.profit_percentage.
    by rewrite (proj2 (DecFacts.gt_zero _) Hpos), Hq. }
  rewrite (DecFacts.mul_100 q Hlt).
  pose proof (value_pos _ Hpos) as Hcpos.
  pose proof (DecFacts.sub_exact _ _ Hs Hc) as Hsub.
  fold (Product.profit_per_unit p) in Hsub.
  set (x := (Dec.value (Product.profit_per_unit p)
             / Dec.value (Product.cost_price p))%Q) in *.
  assert (Qabs (Dec.value q - x) * inject_Z (10 ^ 27) <= Qabs x)%Q as Hacc'
    by exact Hacc.
  destruct (close_same_sign x (Dec.value q) Hacc') as (H1 & H2 & H3).
  destruct (quotient_sign (Dec.value (Product.profit_per_unit p))
              (Dec.value (Product.cost_price p)) Hcpos) as (G1 & G2 & G3).
  fold x in G1, G2, G3.
  split; [|split]; intros Hcmp.
  - assert (0 < Dec.value q)%Q by (apply H1, G1; lra). lra.
  - assert (Dec.value q == 0)%Q as -> by (apply H2, G2; lra). ring.
  - assert (Dec.value q < 0)%Q by (apply H3, G3; lra). lra.
Qed.

Lemma profit_percentage_sign_witness :
  exists r,
    Product.profit_percentage Example.lipstick = Some r
    /\ (0 < Dec.value r)%Q.
Proof.
  destruct (profit_percentage_sign Example.lipstick)
    as (r & Hr & H1 & _); try reflexivity.
  exists r. split; [exact Hr|]. apply H1. reflexivity.
Defined.

(** ** The list settings *)

Module SettingsFacts.
Import Settings.

Lemma split_cons sep s : exists p ps, split sep s = p :: ps.
Proof.
  destruct s as [|c s]; cbn; [by eexists _, _|].
  destruct (Ascii.eqb c sep); [by eexists _, _|].
  destruct (split sep s); by eexists _, _.
Qed.

Lemma length_split sep s : length (split sep s) = S (count sep s).
Proof.
  induction s as [|c s IH]; cbn; [done|].
  destruct (Ascii.eqb c sep); cbn; [by rewrite IH|].
  destruct (split sep s) as [|p ps]; cbn in *; [done | exact IH].
Qed.

Lemma join_cons sep p q l :
  join sep (p :: q :: l) = (p ++ sep ++ join sep (q :: l))%string.
Proof. reflexivity. Qed.

Lemma join_split sep s : join (String sep EmptyString) (split sep s) = s.
Proof.
  induction s as [|c s IH]; [done|]. cbn [split].
  destruct (split_cons sep s) as (p & ps & Hp). rewrite Hp in *.
  destruct (Ascii.eqb_spec c sep) as [->|Hne].
  - rewrite join_cons. rewrite IH. reflexivity.
  - destruct ps as [|p' ps].
    + cbn in *. by rewrite IH.
    + rewrite join_cons in *. rewrite <- IH. reflexivity.
Qed.

Lemma split_no_sep sep s : Forall (fun p => count sep p = 0%nat) (split sep s).
Proof.
  induction s as [|c s IH]; cbn; [by repeat constructor|].
  destruct (Ascii.eqb c sep) eqn:E; [by constructor|].
  destruct (split sep s) as [|p ps]; [by repeat constructor; cbn; rewrite E|].
  inversion IH as [|? ? Hp Hps]; subst.
  constructor; [|done]. cbn. by rewrite E.
Qed.

Lemma lstrip_first s c :
  first_char (lstrip s) = Some c -> is_space c = false.
Proof.
  induction s as [|c' s IH]; cbn; [done|].
  destruct (is_space c') eqn:E; [exact IH|]. cbn. by intros [= <-].
Qed.

Lemma rstrip_last s c : last_char (rstrip s) = Some c -> is_space c = false.
Proof.
  induction s as [|c' s IH]; cbn; [done|].
  destruct (rstrip s) as [|c'' r] eqn:Er.
  - destruct (is_space c') eqn:E; cbn; [done|]. by intros [= <-].
  - cbn [last_char]. exact IH.
Qed.

Lemma rstrip_first s c :
  first_char s = Some c -> is_space c = false -> first_char (rstrip s) = Some c.
Proof.
  destruct s as [|c' s]; cbn; [done|]. intros [= ->] Hc.
  destruct (rstrip s); [by rewrite Hc | done].
Qed.

Lemma rstrip_count sep s : count sep s = 0%nat -> count sep (rstrip s) = 0%nat.
Proof.
  induction s as [|c s IH]; cbn; [done|].
  destruct (Ascii.eqb c sep) eqn:E; [done|]. cbn. intros Hs.
  destruct (rstrip s) as [|c' r].
  - destruct (is_space c); cbn; [done | by rewrite E].
  - cbn [count]. rewrite E. by apply IH.
Qed.

Lemma lstrip_count sep s : count sep s = 0%nat -> count sep (lstrip s) = 0%nat.
Proof.
  induction s as [|c s IH]; cbn; [done|].
  destruct (Ascii.eqb c sep) eqn:E; [done|]. cbn. intros Hs.
  destruct (is_space c); [by apply IH | by cbn; rewrite E].
Qed.

Lemma strip_spec s :
  (forall c, first_char (strip s) = Some c -> is_space c = false)
  /\ (forall c, last_char (strip s) = Some c -> is_space c = false)
  /\ (forall sep, count sep s = 0%nat -> count sep (strip s) = 0%nat).
Proof.
  unfold strip. split; [|split].
  - intros c Hc. destruct (first_char (lstrip s)) as [c0|] eqn:E.
    + pose proof (lstrip_first s c0 E) as Hc0.
      rewrite (rstrip_first _ _ E Hc0) in Hc. by injection Hc as <-.
    + destruct (lstrip s); [done | done].
  - apply rstrip_last.
  - intros sep Hs. by apply rstrip_count, lstrip_count.
Qed.

Lemma rstrip_id s :
  (forall c, count c s = 0%nat \/ is_space c = false) -> rstrip s = s.
Proof.
  induction s as [|c s IH]; cbn; [done|]. intros H.
  assert (is_space c = false) as Hc.
  { destruct (H c) as [Hz|]; [|done]. cbn in Hz. by rewrite Ascii.eqb_refl in Hz. }
  rewrite IH.
  - destruct s; [by rewrite Hc | done].
  - intros c'. destruct (H c') as [Hz|]; [left|by right].
    cbn in Hz. destruct (Ascii.eqb c c'); [done | exact Hz].
Qed.

Lemma strip_id s :
  (forall c, count c s = 0%nat \/ is_space c = false) -> strip s = s.
Proof.
  intros H. unfold strip.
  assert (lstrip s = s) as ->.
  { destruct s as [|c s]; [done|]. cbn.
    destruct (H c) as [Hz|Hc]; [|by rewrite Hc].
    cbn in Hz. by rewrite Ascii.eqb_refl in Hz. }
  by apply rstrip_id.
Qed.

Lemma split_parts_sub sep s c :
  count c s = 0%nat -> Forall (fun p => count c p = 0%nat) (split sep s).
Proof.
  induction s as [|c' s IH]; cbn; [by repeat constructor|].
  destruct (Ascii.eqb c' c) eqn:E; [done|]. cbn. intros Hs.
  specialize (IH Hs).
  destruct (Ascii.eqb c' sep); [by constructor|].
  destruct (split sep s) as [|p ps]; [by repeat constructor; cbn; rewrite E|].
  inversion IH as [|? ? Hp Hps]; subst.
  constructor; [|done]. cbn. by rewrite E.
Qed.

End SettingsFacts.

(** X14. The cast of ALLOWED_HOSTS and CORS_ALLOWED_ORIGINS gives one
    element more than the value has commas, so never an empty list (an
    empty value gives one empty host); no element holds a comma, and none
    begins or ends with a whitespace character. *)
Theorem cast_list_shape v :
  length (Settings.cast_list v) = S (Settings.count "," v)
  /\ Settings.cast_list EmptyString = [EmptyString]
  /\ Forall (fun h =>
         Settings.count "," h = 0%nat
         /\ (forall c, Settings.first_char h = Some c ->
                       Settings.is_space c = false)
         /\ (forall c, Settings.last_char h = Some c ->
                       Settings.is_space c = false))
       (Settings.cast_list v).
Proof.
  unfold Settings.cast_list. split; [|split].
  - by rewrite length_fmap, SettingsFacts.length_split.
  - reflexivity.
  - rewrite Forall_fmap.
    pose proof (SettingsFacts.split_no_sep "," v) as Hall.
    rewrite Forall_forall in Hall. apply Forall_forall.
    intros p Hin. pose proof (Hall p Hin) as Hp. cbn. destruct (SettingsFacts.strip_spec p) as (H1 & H2 & H3).
    split; [by apply H3|]. by split.
Qed.

Lemma cast_list_shape_witness :
  length (Settings.ALLOWED_HOSTS (Some " a.example , b.example ")) = 2%nat
  /\ Settings.ALLOWED_HOSTS (Some " a.example , b.example ")
     = ["a.example"; "b.example"]%string.
Proof.
  split; [|reflexivity].
  apply (proj1 (cast_list_shape " a.example , b.example ")).
Defined.

(** X15. Splitting loses nothing: the parts of a value joined by commas
    are the value; and when the value has no whitespace character the
    cast list itself, joined by commas, is the value. *)
Theorem cast_list_join v :
  Settings.join "," (Settings.split "," v) = v
  /\ ((forall c, Settings.is_space c = true -> Settings.count c v = 0%nat) ->
      Settings.join "," (Settings.cast_list v) = v).
Proof.
  split; [apply SettingsFacts.join_split|].
  intros Hv. unfold Settings.cast_list.
  assert (Settings.strip <$> Settings.split "," v = Settings.split "," v) as ->.
  { rewrite <- (list_fmap_id (Settings.split "," v)) at 2.
    apply Forall_fmap_ext_1.
    apply Forall_forall. intros p Hp. cbn. apply SettingsFacts.strip_id.
    intros c. destruct (Settings.is_space c) eqn:Hc; [left|by right].
    pose proof (SettingsFacts.split_parts_sub "," v c (Hv c Hc)) as Hall.
    rewrite Forall_forall in Hall. by apply Hall. }
  apply SettingsFacts.join_split.
Qed.

Lemma cast_list_join_witness :
  Settings.join "," (Settings.ALLOWED_HOSTS None) = "localhost,127.0.0.1"%string.
Proof.
  apply (proj2 (cast_list_join "localhost,127.0.0.1")).
  intros c Hc. unfold Settings.is_space in Hc.
  destruct c as [[] [] [] [] [] [] [] []]; cbn in Hc; try discriminate;
    reflexivity.
Defined.
